(** * SRCNN training script ([train.py]): model and verified properties

    The script is a single top-level program: it parses its options, builds
    the data loaders, the model, the Adam optimizer and a gradient scaler,
    and then alternates a training pass and a validation pass once per epoch,
    saving a checkpoint after every epoch and a separate best checkpoint
    when the validation metric improves.

    Numbers.  Python floats are modelled by [pyfloat]: a real number, one of
    the two infinities, or NaN.  Arithmetic on finite values is exact (the
    rounding of binary64 is not part of the model); the special values follow
    IEEE 754 and the exceptions follow CPython ([ZeroDivisionError] for [/],
    [ValueError] for [math.log10]). *)

From Stdlib Require Import Reals Lra Lia List String ZArith Bool Arith.
From Stdlib Require Import DecimalString.
From Stdlib Require DecimalPos DecimalZ.
From Stdlib Require Import SpecFloat.
Import ListNotations.
Local Open Scope R_scope.

(** ** Python floats *)

Inductive pyfloat : Type :=
| Fin (x : R)
| PInf
| NInf
| NaN.

Definition is_finite (f : pyfloat) : bool :=
  match f with Fin _ => true | _ => false end.

Definition is_inf (f : pyfloat) : bool :=
  match f with PInf | NInf => true | _ => false end.

Inductive sign : Type := Neg | Zero | Pos.

Definition Rsign (x : R) : sign :=
  if Rlt_dec 0 x then Pos else if Rlt_dec x 0 then Neg else Zero.

Definition sign_mul (a b : sign) : sign :=
  match a, b with
  | Zero, _ | _, Zero => Zero
  | Pos, Pos | Neg, Neg => Pos
  | Pos, Neg | Neg, Pos => Neg
  end.

Definition fsign (f : pyfloat) : option sign :=
  match f with
  | Fin x => Some (Rsign x)
  | PInf => Some Pos
  | NInf => Some Neg
  | NaN => None
  end.

(** An infinity of the given sign; [inf * 0] is NaN. *)
Definition inf_of_sign (s : sign) : pyfloat :=
  match s with Pos => PInf | Neg => NInf | Zero => NaN end.

(** [a + b] *)
Definition fadd (a b : pyfloat) : pyfloat :=
  match a, b with
  | NaN, _ | _, NaN => NaN
  | Fin x, Fin y => Fin (x + y)
  | PInf, NInf | NInf, PInf => NaN
  | PInf, _ | _, PInf => PInf
  | NInf, _ | _, NInf => NInf
  end.

(** [a * b] *)
Definition fmul (a b : pyfloat) : pyfloat :=
  match a, b with
  | Fin x, Fin y => Fin (x * y)
  | _, _ =>
      match fsign a, fsign b with
      | Some sa, Some sb => inf_of_sign (sign_mul sa sb)
      | _, _ => NaN
      end
  end.

(** Python exceptions the script can meet. [OtherError] stands for whatever
    an external collaborator raises (missing files, bad loader options). *)
Inductive exn : Type :=
| ZeroDivisionError
| ValueError
| OtherError (msg : string).

Inductive result (A : Type) : Type :=
| Ok (a : A)
| Err (e : exn).
Arguments Ok {A} a.
Arguments Err {A} e.

(** [a / b]: CPython raises when the divisor is zero, whatever the
    dividend; otherwise IEEE division. *)
Definition truediv (a b : pyfloat) : result pyfloat :=
  match b with
  | NaN => Ok NaN
  | Fin y =>
      if Req_EM_T y 0 then Err ZeroDivisionError
      else match a with
           | Fin x => Ok (Fin (x / y))
           | NaN => Ok NaN
           | _ => match fsign a with
                  | Some sa => Ok (inf_of_sign (sign_mul sa (Rsign y)))
                  | None => Ok NaN
                  end
           end
  | PInf | NInf =>
      match a with
      | Fin _ => Ok (Fin 0)
      | _ => Ok NaN
      end
  end.

(** Base-10 logarithm of a positive real. *)
Definition log10 (x : R) : R := ln x / ln 10.

(** [math.log10]: a domain error unless the argument is positive. *)
Definition math_log10 (a : pyfloat) : result pyfloat :=
  match a with
  | Fin x => if Rlt_dec 0 x then Ok (Fin (log10 x)) else Err ValueError
  | PInf => Ok PInf
  | NInf => Err ValueError
  | NaN => Ok NaN
  end.

(** [a > b]: false as soon as one side is NaN. *)
Definition pygt (a b : pyfloat) : bool :=
  match a, b with
  | NaN, _ | _, NaN => false
  | Fin x, Fin y => if Rlt_dec y x then true else false
  | PInf, PInf => false
  | PInf, _ => true
  | _, NInf => match a with NInf => false | _ => true end
  | _, _ => false
  end.

(** [float(n)] for the result of [len(...)]. *)
Definition of_len (n : nat) : pyfloat := Fin (INR n).

(** ** Command line ([argparse], lines 29-53)

    Every [type=int] option accepts any integer and [--lr] any float: the
    parser checks the syntax of the values, not their range. *)

Record Args : Type := mkArgs {
  dataroot : string;
  workers : Z;
  epochs : Z;
  batch_size : Z;
  lr : pyfloat;
  scale_factor : Z;
  print_freq : Z;
  cuda : bool;
  weights : string;
  manualSeed : option Z
}.

(** The namespace [parse_args] returns when no option is given. *)
Definition default_args : Args :=
  {| dataroot := "./data/DIV2K"; workers := 0; epochs := 200;
     batch_size := 64; lr := Fin (1 / 10000); scale_factor := 4;
     print_freq := 5; cuda := false; weights := ""; manualSeed := None |}.

Definition set_print_freq (p : Z) (a : Args) : Args :=
  {| dataroot := dataroot a; workers := workers a; epochs := epochs a;
     batch_size := batch_size a; lr := lr a; scale_factor := scale_factor a;
     print_freq := p; cuda := cuda a; weights := weights a;
     manualSeed := manualSeed a |}.

Definition set_epochs (n : Z) (a : Args) : Args :=
  {| dataroot := dataroot a; workers := workers a; epochs := n;
     batch_size := batch_size a; lr := lr a; scale_factor := scale_factor a;
     print_freq := print_freq a; cuda := cuda a; weights := weights a;
     manualSeed := manualSeed a |}.

(** [str(n)] for an integer. *)
Definition str_of_Z (n : Z) : string := NilZero.string_of_int (Z.to_int n).

(** [f"weights/model_{epoch}.pth"] *)
Definition epoch_path (epoch : nat) : string :=
  ("weights/model_" ++ str_of_Z (Z.of_nat epoch) ++ ".pth")%string.

(** [f"weights/srcnn_X{args.scale_factor}.pth"] *)
Definition best_path (a : Args) : string :=
  ("weights/srcnn_X" ++ str_of_Z (scale_factor a) ++ ".pth")%string.

(** A console line: the template of the [print] call and the values it
    formats.  The rendering of a float ([:.6f], [:.2f]) is a function of
    the value, so two lines with the same value print the same text. *)
Inductive line : Type :=
| LNamespace (a : Args)                         (* print(args) *)
| LRandomSeed (seed : Z)                         (* "Random Seed: ", seed *)
| LCudaWarning                                   (* "WARNING: You have a CUDA device, ..." *)
| LTrainingLoss (epoch : nat) (mean : pyfloat)   (* "Epoch {epoch}. Training loss: {mean:.6f}" *)
| LAveragePSNR (mean : pyfloat).                 (* "Average PSNR: {mean:.2f} dB." *)

Inductive device : Type := Cuda0 | Cpu.

(** [torch.device("cuda:0" if args.cuda else "cpu")] *)
Definition device_of (a : Args) : device := if cuda a then Cuda0 else Cpu.

(** ** The three parameter groups of the model *)

Inductive layer : Type := conv1 | conv2 | conv3.

Definition layer_eqb (a b : layer) : bool :=
  match a, b with
  | conv1, conv1 | conv2, conv2 | conv3, conv3 => true
  | _, _ => false
  end.

(** A parameter tensor is named by its layer and its name in the layer. *)
Definition param_id : Type := (layer * string)%type.

Definition param_id_eqb (p q : param_id) : bool :=
  layer_eqb (fst p) (fst q) && String.eqb (snd p) (snd q).

(** Modelled from the spec: the class [SRCNN] (package [srcnn_pytorch]) is
    not among the sources.  The spec gives the model three ordered, disjoint
    parameter groups, one per convolution, and nothing else; a convolution
    layer owns a weight and a bias. *)
Definition layer_parameters (l : layer) : list param_id :=
  [(l, "weight"%string); (l, "bias"%string)].

Definition model_parameters : list param_id :=
  layer_parameters conv1 ++ layer_parameters conv2 ++ layer_parameters conv3.

(** ** Optimizer configuration ([torch.optim])

    A group is given as a dictionary; [lr] may be absent from it. *)
Record group_options : Type := mkGroupOptions {
  go_params : list param_id;
  go_lr : option pyfloat
}.

Record param_group : Type := mkParamGroup {
  pg_params : list param_id;
  pg_lr : pyfloat
}.

(** [Optimizer.add_param_group]: a key absent from the group's dictionary
    is filled from the optimizer's defaults ([dict.setdefault]); a key the
    group gives is kept. *)
Definition add_param_group (default_lr : pyfloat) (g : group_options)
  : param_group :=
  {| pg_params := go_params g;
     pg_lr := match go_lr g with Some r => r | None => default_lr end |}.

Record OptimizerConfig : Type := mkOptimizerConfig {
  defaults_lr : pyfloat;
  param_groups : list param_group
}.

(** [optim.Adam(groups, lr=default_lr)] *)
Definition Adam (groups : list group_options) (default_lr : pyfloat)
  : OptimizerConfig :=
  {| defaults_lr := default_lr;
     param_groups := map (add_param_group default_lr) groups |}.

(** Lines 94-101. *)
Definition make_optimizer (a : Args) : OptimizerConfig :=
  Adam [ {| go_params := layer_parameters conv1; go_lr := Some (lr a) |};
         {| go_params := layer_parameters conv2; go_lr := Some (lr a) |};
         {| go_params := layer_parameters conv3; go_lr := Some (lr a) |} ]
       (fmul (lr a) (Fin (1 / 10))).

(** Number of groups of a configuration that hold parameter [p]. *)
Definition groups_holding (c : OptimizerConfig) (p : param_id) : nat :=
  List.length (filter (fun g => existsb (param_id_eqb p) (pg_params g))
                 (param_groups c)).

(** The rate the optimizer applies to parameter [p]: the rate of the first
    group that holds it. *)
Definition rate_of (c : OptimizerConfig) (p : param_id) : option pyfloat :=
  option_map pg_lr
    (find (fun g => existsb (param_id_eqb p) (pg_params g)) (param_groups c)).

(** ** Gradient scaler ([torch.cuda.amp.GradScaler])

    The loss scale is a stored floating-point scalar: a value of the IEEE
    format given by a precision and a largest exponent, and a product is
    rounded to that format.  Repeated halving therefore ends at zero and
    repeated doubling at infinity. *)

Record ScalerCfg : Type := mkScalerCfg {
  scale_prec : Z;
  scale_emax : Z;
  init_scale : spec_float;
  growth_factor : spec_float;
  backoff_factor : spec_float;
  growth_interval : nat
}.

Record GradScaler : Type := mkGradScaler {
  cur_scale : spec_float;
  growth_tracker : nat
}.

(** The product of two stored values, rounded to the format of the scale. *)
Definition scale_mul (c : ScalerCfg) (x y : spec_float) : spec_float :=
  SFmul (scale_prec c) (scale_emax c) x y.

(** Modelled from the spec: [GradScaler] belongs to the tensor library, not
    to the sources.  The spec (4.2) has the constants tunable, the scale
    shrink multiplicatively after a skipped step and grow multiplicatively
    after a configured number of consecutive applied steps. *)
Definition new_scaler (c : ScalerCfg) : GradScaler :=
  {| cur_scale := init_scale c; growth_tracker := 0 |}.

(** Modelled from the spec: [update_scale(applied)] of spec 4.2, the call
    [scaler.update()] of line 136. *)
Definition update_scale (c : ScalerCfg) (s : GradScaler) (applied : bool)
  : GradScaler :=
  if applied then
    if Nat.eqb (S (growth_tracker s)) (growth_interval c)
    then {| cur_scale := scale_mul c (cur_scale s) (growth_factor c);
            growth_tracker := 0 |}
    else {| cur_scale := cur_scale s; growth_tracker := S (growth_tracker s) |}
  else {| cur_scale := scale_mul c (cur_scale s) (backoff_factor c);
          growth_tracker := 0 |}.

(** Single-precision powers of two: [2^23 * 2^e]. *)
Definition scale_two : spec_float := S754_finite false 8388608 (-22).
Definition scale_half : spec_float := S754_finite false 8388608 (-24).
Definition scale_zero : spec_float := S754_zero false.

(** The library's defaults: a single-precision scale that starts at 2^16,
    doubles after 2000 applied steps in a row and halves on overflow. *)
Definition default_scaler_cfg : ScalerCfg :=
  {| scale_prec := 24; scale_emax := 128;
     init_scale := S754_finite false 8388608 (-7);
     growth_factor := scale_two; backoff_factor := scale_half;
     growth_interval := 2000 |}.



(** The number a stored value stands for. *)
Definition sf_value (x : spec_float) : pyfloat :=
  match x with
  | S754_zero _ => Fin 0
  | S754_infinity false => PInf
  | S754_infinity true => NInf
  | S754_nan => NaN
  | S754_finite s m e => Fin (IZR (cond_Zopp s (Zpos m)) * powerRZ 2 e)
  end.

(** [scaler.get_scale()] *)
Definition get_scale (s : GradScaler) : pyfloat := sf_value (cur_scale s).

(** The reciprocal of a tensor value: no exception, [1 / 0] is infinite. *)
Definition reciprocal (f : pyfloat) : pyfloat :=
  match f with
  | Fin x => if Req_EM_T x 0 then PInf else Fin (/ x)
  | PInf | NInf => Fin 0
  | NaN => NaN
  end.




(** The single-precision values the default scale can take, in increasing
    order: zero, the powers of two from 2^-149 to 2^127, and infinity. *)
Fixpoint doublings (n : nat) (x : spec_float) : list spec_float :=
  match n with
  | O => []
  | S n' => x :: doublings n' (SFmul 24 128 x scale_two)
  end.

Definition scale_table : list spec_float :=
  scale_zero :: doublings 278 (S754_finite false 1 (-149)).



(** Modelled from the spec: the non-finite test of [step] (spec 4.2), as
    the comment of lines 128-132 has it: an inf or a NaN among the
    gradients. *)
Definition found_inf (grads : list pyfloat) : bool :=
  existsb (fun g => negb (is_finite g)) grads.

(** Dividing the scale out of the gradients. *)
Definition unscale (s : GradScaler) (grads : list pyfloat) : list pyfloat :=
  map (fun g => fmul g (reciprocal (get_scale s))) grads.

(** ** Output and exceptions

    A computation yields the events it produced and either a value or the
    exception that ended it; the events emitted before an exception stay. *)

Section Monad.

Variable E : Type.

Definition M (A : Type) : Type := (list E * result A)%type.

Definition ret {A : Type} (a : A) : M A := ([], Ok a).

Definition bind {A B : Type} (m : M A) (f : A -> M B) : M B :=
  match snd m with
  | Err e => (fst m, Err e)
  | Ok a => (fst m ++ fst (f a), snd (f a))
  end.

Definition emit (e : E) : M unit := ([e], Ok tt).

Definition lift {A : Type} (r : result A) : M A := ([], r).

Definition trace {A : Type} (m : M A) : list E := fst m.

Definition outcome {A : Type} (m : M A) : result A := snd m.

(** [for x in xs: s = f(s, x)] *)
Fixpoint for_each {X S : Type} (f : S -> X -> M S) (xs : list X) (s : S)
  : M S :=
  match xs with
  | [] => ret s
  | x :: xs' => bind (f s x) (for_each f xs')
  end.

End Monad.

Arguments ret {E A} a.
Arguments bind {E A B} m f.
Arguments emit {E} e.
Arguments lift {E A} r.
Arguments trace {E A} m.
Arguments outcome {E A} m.
Arguments for_each {E X S} f xs s.

Notation "x <- m ;; k" := (bind m (fun x => k))
  (at level 61, m at next level, right associativity).
Notation "m ;;; k" := (bind m (fun _ => k))
  (at level 61, right associativity).

(** ** The program *)

Section Program.

(** What the tensor library and the data package own: a batch of samples,
    the model's parameters (its [state_dict]), the optimizer's moment
    buffers, a dataset and a loader. *)
Variables batch params opt_state dataset loader : Type.

(** What a run does to the outside: console lines, fetched batches, calls
    of [scaler.step] (with whether [optimizer.step()] ran) and files. *)
Inductive event : Type :=
| EMakedirs (dir : string)
| EPrint (l : line)
| EFetch (training : bool) (b : batch)
| EStep (applied : bool)
| ESave (path : string) (sd : params).

(** The external collaborators, as the script calls them.  The seed of the
    process-wide random source is an argument of whatever draws from it. *)
Record Collab : Type := mkCollab {
  cuda_is_available : bool;
  (* the value random.randint(1, 10000) returns in this run *)
  randint_1_10000 : Z;
  (* DatasetFromFolder(path, scale_factor=...) *)
  DatasetFromFolder : string -> Z -> result dataset;
  (* DataLoader(dataset, batch_size=..., shuffle=..., num_workers=...) *)
  DataLoader : dataset -> Z -> bool -> Z -> result loader;
  (* len(loader) *)
  len_loader : loader -> nat;
  (* the batches one pass over the loader delivers, in order *)
  iter_loader : loader -> Z -> nat -> list batch;
  iter_loader_length : forall l seed epoch,
    List.length (iter_loader l seed epoch) = len_loader l;
  (* SRCNN().to(device) *)
  SRCNN_init : Z -> device -> params;
  (* model.load_state_dict(torch.load(path, map_location=device)) *)
  torch_load : string -> device -> result params;
  (* criterion(model(inputs), target).item(); the flag is amp.autocast() *)
  loss_item : device -> bool -> params -> batch -> pyfloat;
  (* the gradients .backward() leaves, for the loss times the scale *)
  backward : device -> params -> batch -> pyfloat -> list pyfloat;
  adam_init : params -> opt_state;
  (* optimizer.step() on unscaled gradients *)
  adam_step : OptimizerConfig -> opt_state -> params -> list pyfloat
              -> opt_state * params;
  (* the constants of amp.GradScaler() *)
  scaler_cfg : ScalerCfg
}.

Variable W : Collab.
Variable args : Args.

Record TrainState : Type := mkTrainState {
  model : params;
  moments : opt_state;
  scaler : GradScaler
}.

(** [scaler.step(optimizer)], lines 128-133: the optimizer runs unless the
    gradients hold an inf or a NaN. *)
Definition scaler_step (oc : OptimizerConfig) (st : TrainState)
    (grads : list pyfloat) : bool * (opt_state * params) :=
  if found_inf grads then (false, (moments st, model st))
  else (true, adam_step W oc (moments st) (model st) (unscale (scaler st) grads)).

(** One pass of the inner training loop, lines 112-138. *)
Definition train_iteration (oc : OptimizerConfig)
    (acc : TrainState * pyfloat) (b : batch) : M event (TrainState * pyfloat) :=
  let st := fst acc in
  let epoch_loss := snd acc in
  emit (EFetch true b) ;;;
  let loss := loss_item W (device_of args) true (model st) b in
  let grads := backward W (device_of args) (model st) b (get_scale (scaler st)) in
  let r := scaler_step oc st grads in
  emit (EStep (fst r)) ;;;
  let sc := update_scale (scaler_cfg W) (scaler st) (fst r) in
  ret ({| model := snd (snd r); moments := fst (snd r); scaler := sc |},
       fadd epoch_loss loss).

(** [10 * math.log10(1 / loss.item())], line 151. *)
Definition psnr_of_loss (loss : pyfloat) : result pyfloat :=
  match truediv (Fin 1) loss with
  | Err e => Err e
  | Ok q =>
      match math_log10 q with
      | Err e => Err e
      | Ok l => Ok (fmul (Fin 10) l)
      end
  end.

(** One pass of the validation loop, lines 146-152. *)
Definition eval_iteration (m : params) (avg_psnr : pyfloat) (b : batch)
  : M event pyfloat :=
  emit (EFetch false b) ;;;
  let loss := loss_item W (device_of args) false m b in
  psnr <- lift (psnr_of_loss loss) ;;
  ret (fadd avg_psnr psnr).

Record LoopState : Type := mkLoopState {
  train_state : TrainState;
  best_psnr : pyfloat
}.

(** The training pass of one epoch, lines 111-141. *)
Definition train_epoch (oc : OptimizerConfig) (train_dl : loader) (seed : Z)
    (st : TrainState) (epoch : nat) : M event TrainState :=
  r <- for_each (train_iteration oc) (iter_loader W train_dl seed epoch)
         (st, Fin 0) ;;
  mean <- lift (truediv (snd r) (of_len (len_loader W train_dl))) ;;
  emit (EPrint (LTrainingLoss epoch mean)) ;;;
  ret (fst r).

(** The validation pass of one epoch, lines 144-153. *)
Definition eval_epoch (val_dl : loader) (seed : Z) (m : params)
    (epoch : nat) : M event pyfloat :=
  avg_psnr <- for_each (eval_iteration m) (iter_loader W val_dl seed epoch)
                (Fin 0) ;;
  mean <- lift (truediv avg_psnr (of_len (len_loader W val_dl))) ;;
  emit (EPrint (LAveragePSNR mean)) ;;;
  ret avg_psnr.

(** Saving, lines 156-160. *)
Definition save_model (s : LoopState) (st : TrainState) (avg_psnr : pyfloat)
    (epoch : nat) : M event LoopState :=
  emit (ESave (epoch_path epoch) (model st)) ;;;
  if pygt avg_psnr (best_psnr s) then
    emit (ESave (best_path args) (model st)) ;;;
    ret {| train_state := st; best_psnr := avg_psnr |}
  else
    ret {| train_state := st; best_psnr := best_psnr s |}.

(** The body of the epoch loop, lines 108-160. *)
Definition epoch_body (oc : OptimizerConfig) (train_dl val_dl : loader)
    (seed : Z) (s : LoopState) (epoch : nat) : M event LoopState :=
  st <- train_epoch oc train_dl seed (train_state s) epoch ;;
  avg_psnr <- eval_epoch val_dl seed (model st) epoch ;;
  save_model s st avg_psnr epoch.

(** [range(args.epochs)] *)
Definition epoch_range : list nat := seq 0 (Z.to_nat (epochs args)).

(** The seed in use after lines 61-62. *)
Definition effective_seed : Z :=
  match manualSeed args with
  | Some s => s
  | None => randint_1_10000 W
  end.

(** What the script builds before the epoch loop. *)
Record Session : Type := mkSession {
  train_dataloader : loader;
  val_dataloader : loader;
  seed_used : Z;
  initial_model : params
}.

(** Lines 54-92: echo of the options, output directory, seed, datasets,
    loaders, model and, when [--weights] is given, its parameters. *)
Definition setup : M event Session :=
  emit (EPrint (LNamespace args)) ;;;
  emit (EMakedirs "weights") ;;;
  let seed := effective_seed in
  emit (EPrint (LRandomSeed seed)) ;;;
  (if cuda_is_available W && negb (cuda args)
   then emit (EPrint LCudaWarning) else ret tt) ;;;
  train_dataset <- lift (DatasetFromFolder W (dataroot args ++ "/train")%string
                           (scale_factor args)) ;;
  val_dataset <- lift (DatasetFromFolder W (dataroot args ++ "/val")%string
                         (scale_factor args)) ;;
  train_dl <- lift (DataLoader W train_dataset (batch_size args) true
                      (workers args)) ;;
  val_dl <- lift (DataLoader W val_dataset (batch_size args) false
                    (workers args)) ;;
  m <- (if String.eqb (weights args) "" then
          ret (SRCNN_init W seed (device_of args))
        else lift (torch_load W (weights args) (device_of args))) ;;
  ret {| train_dataloader := train_dl; val_dataloader := val_dl;
         seed_used := seed; initial_model := m |}.

(** Lines 93-106: the state the epoch loop starts from. *)
Definition initial_state (se : Session) : LoopState :=
  {| train_state := {| model := initial_model se;
                       moments := adam_init W (initial_model se);
                       scaler := new_scaler (scaler_cfg W) |};
     best_psnr := Fin 0 |}.

(** Lines 108-160: the epoch loop. *)
Definition run_epochs (se : Session) (epochs : list nat) (s : LoopState)
  : M event LoopState :=
  for_each (epoch_body (make_optimizer args) (train_dataloader se)
              (val_dataloader se) (seed_used se)) epochs s.

(** The whole script. *)
Definition main : M event LoopState :=
  se <- setup ;;
  run_epochs se epoch_range (initial_state se).

(** The state an iteration leaves. *)
Definition iteration_result (oc : OptimizerConfig) (st : TrainState)
    (b : batch) : TrainState :=
  match outcome (train_iteration oc (st, Fin 0) b) with
  | Ok r => fst r
  | Err _ => st
  end.

(** The value [loss.item()] has in each iteration of a training pass. *)
Fixpoint iteration_losses (oc : OptimizerConfig) (st : TrainState)
    (bs : list batch) : list pyfloat :=
  match bs with
  | [] => []
  | b :: bs' =>
      loss_item W (device_of args) true (model st) b
      :: iteration_losses oc (iteration_result oc st b) bs'
  end.

End Program.

Arguments cuda_is_available {batch params opt_state dataset loader} c.
Arguments randint_1_10000 {batch params opt_state dataset loader} c.
Arguments DatasetFromFolder {batch params opt_state dataset loader} c _ _.
Arguments DataLoader {batch params opt_state dataset loader} c _ _ _ _.
Arguments len_loader {batch params opt_state dataset loader} c _.
Arguments iter_loader {batch params opt_state dataset loader} c _ _ _.
Arguments iter_loader_length {batch params opt_state dataset loader} c _ _ _.
Arguments SRCNN_init {batch params opt_state dataset loader} c _ _.
Arguments torch_load {batch params opt_state dataset loader} c _ _.
Arguments loss_item {batch params opt_state dataset loader} c _ _ _ _.
Arguments backward {batch params opt_state dataset loader} c _ _ _ _.
Arguments adam_init {batch params opt_state dataset loader} c _.
Arguments adam_step {batch params opt_state dataset loader} c _ _ _ _.
Arguments scaler_cfg {batch params opt_state dataset loader} c.
Arguments mkTrainState {params opt_state} model moments scaler.
Arguments model {params opt_state} t.
Arguments moments {params opt_state} t.
Arguments scaler {params opt_state} t.
Arguments mkLoopState {params opt_state} train_state best_psnr.
Arguments train_state {params opt_state} l.
Arguments best_psnr {params opt_state} l.
Arguments mkSession {params loader} _ _ _ _.
Arguments train_dataloader {params loader} s.
Arguments val_dataloader {params loader} s.
Arguments seed_used {params loader} s.
Arguments initial_model {params loader} s.
Arguments EMakedirs {batch params} dir.
Arguments EPrint {batch params} l.
Arguments EFetch {batch params} training b.
Arguments EStep {batch params} applied.
Arguments ESave {batch params} path sd.
Arguments scaler_step {batch params opt_state dataset loader} W oc st grads.
Arguments train_iteration {batch params opt_state dataset loader} W args oc acc b.
Arguments eval_iteration {batch params opt_state dataset loader} W args m avg_psnr b.
Arguments train_epoch {batch params opt_state dataset loader} W args oc train_dl seed st epoch.
Arguments eval_epoch {batch params opt_state dataset loader} W args val_dl seed m epoch.
Arguments save_model {batch params opt_state} args s st avg_psnr epoch.
Arguments epoch_body {batch params opt_state dataset loader} W args oc train_dl val_dl seed s epoch.
Arguments effective_seed {batch params opt_state dataset loader} W args.
Arguments setup {batch params opt_state dataset loader} W args.
Arguments initial_state {batch params opt_state dataset loader} W se.
Arguments run_epochs {batch params opt_state dataset loader} W args se epochs s.
Arguments main {batch params opt_state dataset loader} W args.
Arguments iteration_result {batch params opt_state dataset loader} W args oc st b.
Arguments iteration_losses {batch params opt_state dataset loader} W args oc st bs.

(** ** Reading a trace *)

Section Observers.

Context {batch params : Type}.

(** The console: the printed lines, in order. *)
Definition console (tr : list (event batch params)) : list line :=
  flat_map (fun e => match e with EPrint l => [l] | _ => [] end) tr.

(** The files written, in order, with what was written. *)
Definition saves (tr : list (event batch params)) : list (string * params) :=
  flat_map (fun e => match e with ESave p sd => [(p, sd)] | _ => [] end) tr.

(** The outcomes of the calls of [scaler.step], in order. *)
Definition steps (tr : list (event batch params)) : list bool :=
  flat_map (fun e => match e with EStep b => [b] | _ => [] end) tr.

(** The batches fetched, in order. *)
Definition fetches (tr : list (event batch params)) : list (bool * batch) :=
  flat_map (fun e => match e with EFetch t b => [(t, b)] | _ => [] end) tr.

(** Training work: a fetch, a step or a checkpoint. *)
Definition is_work (e : event batch params) : bool :=
  match e with
  | EFetch _ _ | EStep _ | ESave _ _ => true
  | _ => false
  end.

(** Neither a validation report nor a file: what an epoch emits before its
    validation report. *)
Definition is_quiet (e : event batch params) : bool :=
  match e with
  | EPrint (LAveragePSNR _) | ESave _ _ => false
  | _ => true
  end.

(** Whether the best file is written before the next validation report:
    read from just after an epoch's report, whether that epoch overwrote
    the best checkpoint. *)
Fixpoint best_saved_next (a : Args) (tr : list (event batch params)) : bool :=
  match tr with
  | [] => false
  | ESave p _ :: tr' =>
      if String.eqb p (best_path a) then true else best_saved_next a tr'
  | EPrint (LAveragePSNR _) :: _ => false
  | _ :: tr' => best_saved_next a tr'
  end.

(** One entry per epoch that reached its validation report: the mean it
    reported and whether it overwrote the best checkpoint. *)
Fixpoint epoch_reports (a : Args) (tr : list (event batch params)) : list (pyfloat * bool) :=
  match tr with
  | [] => []
  | EPrint (LAveragePSNR m) :: tr' =>
      (m, best_saved_next a tr') :: epoch_reports a tr'
  | _ :: tr' => epoch_reports a tr'
  end.

End Observers.

(** ** A small world to run the script in

    A batch is the loss the model has on it, as a function of the
    parameters, and the gradients it leaves; the parameters count the
    optimizer steps applied.  The two splits are found under the default
    data root. *)

Definition toy_batch : Type := ((nat -> pyfloat) * list pyfloat)%type.

Definition toy_dataset (tr va : list toy_batch) (path : string)
  : list toy_batch :=
  if String.eqb path "./data/DIV2K/train" then tr else va.

Definition toy (tr va : list toy_batch)
  : Collab toy_batch nat unit (list toy_batch) (list toy_batch) :=
  {| cuda_is_available := false;
     randint_1_10000 := 42;
     DatasetFromFolder := fun path _ => Ok (toy_dataset tr va path);
     DataLoader := fun ds _ _ _ => Ok ds;
     len_loader := fun l => List.length l;
     iter_loader := fun l _ _ => l;
     iter_loader_length := fun l _ _ => eq_refl;
     SRCNN_init := fun _ _ => 0%nat;
     torch_load := fun _ _ => Err (OtherError "no such file");
     loss_item := fun _ _ p b => fst b p;
     backward := fun _ _ b _ => snd b;
     adam_init := fun _ => tt;
     adam_step := fun _ o p _ => (o, S p);
     scaler_cfg := default_scaler_cfg |}.

(** A batch with the given loss and one finite gradient. *)
Definition plain_batch (loss : R) : toy_batch := (fun _ => Fin loss, [Fin 1]).

(** A batch whose gradients overflowed. *)
Definition overflow_batch (loss : R) : toy_batch :=
  (fun _ => Fin loss, [Fin 1; PInf]).

(** A batch whose loss follows the number of steps applied. *)
Definition staged_batch (f : nat -> R) : toy_batch :=
  (fun p => Fin (f p), [Fin 1]).

(** The session of the small world with one training batch and one
    validation batch. *)
Definition toy_session (f : nat -> R) : Session nat (list toy_batch) :=
  {| train_dataloader := [plain_batch 1];
     val_dataloader := [staged_batch f];
     seed_used := 42%Z; initial_model := 0%nat |}.

(** Validation losses 1/100, 1/10, 1/1000 after one, two and three steps. *)
Definition three_stages (p : nat) : R :=
  match p with
  | 1%nat => 1 / 100
  | 2%nat => 1 / 10
  | _ => 1 / 1000
  end.

(** ** The statements of the specification that compare two definitions *)

(** The specification's metric: [10 * log10(reference_peak^2 / loss)]. *)
Definition spec_psnr (reference_peak loss : R) : R :=
  10 * log10 (reference_peak ^ 2 / loss).

(** The sum of a list of floats, from the integer [0], left to right. *)
Definition fsum (xs : list pyfloat) : pyfloat := fold_left fadd xs (Fin 0).

(** The sum of a list of reals, left to right. *)
Definition Rsum (xs : list R) : R := fold_left Rplus xs 0.

(** The validation loop on the losses alone: the sum of the metrics of the
    batches, or the exception of the first batch whose metric raises. *)
Fixpoint psnr_fold (losses : list pyfloat) (avg_psnr : pyfloat)
  : result pyfloat :=
  match losses with
  | [] => Ok avg_psnr
  | l :: ls =>
      match psnr_of_loss l with
      | Ok p => psnr_fold ls (fadd avg_psnr p)
      | Err e => Err e
      end
  end.

(** The metric of a batch of positive loss, as a real. *)
Definition psnr_value (loss : R) : R := 10 * log10 (1 / loss).

(** What an epoch that goes through writes: its own file and, when it
    improved on the best metric, the best file, with the same parameters. *)
Definition epoch_writes {params : Type} (a : Args)
    (r : nat * params * bool) : list (string * params) :=
  (epoch_path (fst (fst r)), snd (fst r))
  :: (if snd r then [(best_path a, snd (fst r))] else []).

(** The same collaborators with another draw of [random.randint]. *)
Definition with_randint {batch params opt_state dataset loader : Type}
    (W : Collab batch params opt_state dataset loader) (z : Z)
  : Collab batch params opt_state dataset loader :=
  {| cuda_is_available := cuda_is_available W;
     randint_1_10000 := z;
     DatasetFromFolder := DatasetFromFolder W;
     DataLoader := DataLoader W;
     len_loader := len_loader W;
     iter_loader := iter_loader W;
     iter_loader_length := iter_loader_length W;
     SRCNN_init := SRCNN_init W;
     torch_load := torch_load W;
     loss_item := loss_item W;
     backward := backward W;
     adam_init := adam_init W;
     adam_step := adam_step W;
     scaler_cfg := scaler_cfg W |}.

(** The default options with [--weights path]. *)
Definition with_weights (path : string) (a : Args) : Args :=
  {| dataroot := dataroot a; workers := workers a; epochs := epochs a;
     batch_size := batch_size a; lr := lr a; scale_factor := scale_factor a;
     print_freq := print_freq a; cuda := cuda a; weights := path;
     manualSeed := manualSeed a |}.

(** The options with [--manualSeed n]. *)
Definition with_seed (n : Z) (a : Args) : Args :=
  {| dataroot := dataroot a; workers := workers a; epochs := epochs a;
     batch_size := batch_size a; lr := lr a; scale_factor := scale_factor a;
     print_freq := print_freq a; cuda := cuda a; weights := weights a;
     manualSeed := Some n |}.

(** * Properties *)

(** ** Floats *)

Lemma pygt_Fin (x y : R) : pygt (Fin x) (Fin y) = true <-> y < x.
Proof.
  unfold pygt. destruct (Rlt_dec y x); split; intro H;
    try reflexivity; try assumption; try discriminate; contradiction.
Qed.

Lemma pygt_Fin_false (x y : R) : pygt (Fin x) (Fin y) = false <-> x <= y.
Proof.
  unfold pygt. destruct (Rlt_dec y x); split; intro H;
    try reflexivity; try discriminate; lra.
Qed.

Lemma pygt_NaN_l (b : pyfloat) : pygt NaN b = false.
Proof. reflexivity. Qed.

Lemma truediv_Fin (x y : R) : y <> 0 -> truediv (Fin x) (Fin y) = Ok (Fin (x / y)).
Proof.
  intro H. unfold truediv. destruct (Req_EM_T y 0); [contradiction | reflexivity].
Qed.

Lemma truediv_zero (a : pyfloat) : truediv a (Fin 0) = Err ZeroDivisionError.
Proof.
  unfold truediv. destruct (Req_EM_T 0 0) as [_ | H]; [reflexivity | now destruct H].
Qed.

Lemma truediv_len_zero (a : pyfloat) : truediv a (of_len 0) = Err ZeroDivisionError.
Proof. apply truediv_zero. Qed.

Lemma INR_S_neq_0 (n : nat) : INR (S n) <> 0.
Proof. apply not_0_INR. discriminate. Qed.

(** Dividing by a non-zero length never raises, and keeps a finite value
    finite. *)
Lemma truediv_len_ok (a : pyfloat) (n : nat) :
  n <> 0%nat -> exists q, truediv a (of_len n) = Ok q.
Proof.
  intro Hn. unfold truediv, of_len.
  destruct (Req_EM_T (INR n) 0) as [H0 | _].
  - exfalso. apply Hn. now apply INR_eq.
  - destruct a; simpl; eauto.
Qed.

Lemma truediv_len_Fin_inv (a : pyfloat) (n : nat) (m : R) :
  truediv a (of_len n) = Ok (Fin m) ->
  n <> 0%nat /\ a = Fin (m * INR n).
Proof.
  unfold truediv, of_len. destruct (Req_EM_T (INR n) 0) as [H0 | Hn]; [discriminate |].
  assert (Hnn : n <> 0%nat) by (intro; subst; now apply Hn).
  destruct a; simpl.
  - intro H. injection H as <-. split; [assumption |]. f_equal. field. assumption.
  - assert (Hs : Rsign (INR n) = Pos).
    { unfold Rsign. destruct (Rlt_dec 0 (INR n)) as [_ | H]; [reflexivity |].
      exfalso. apply H. apply lt_0_INR. lia. }
    rewrite Hs. discriminate.
  - assert (Hs : Rsign (INR n) = Pos).
    { unfold Rsign. destruct (Rlt_dec 0 (INR n)) as [_ | H]; [reflexivity |].
      exfalso. apply H. apply lt_0_INR. lia. }
    rewrite Hs. discriminate.
  - discriminate.
Qed.

Lemma ln_10_pos : 0 < ln 10.
Proof. rewrite <- ln_1. apply ln_increasing; lra. Qed.

Lemma log10_1 : log10 1 = 0.
Proof. unfold log10. rewrite ln_1. field. pose proof ln_10_pos. lra. Qed.

Lemma log10_lt_0 (x : R) : 0 < x < 1 -> log10 x < 0.
Proof.
  intros [H0 H1]. unfold log10. pose proof ln_10_pos as H10.
  assert (Hx : ln x < 0) by (rewrite <- ln_1; now apply ln_increasing).
  apply Rmult_lt_reg_r with (r := ln 10); [assumption |].
  unfold Rdiv. rewrite Rmult_assoc, Rinv_l by lra. lra.
Qed.

Lemma log10_gt_0 (x : R) : 1 < x -> 0 < log10 x.
Proof.
  intro H1. unfold log10. pose proof ln_10_pos as H10.
  assert (Hx : 0 < ln x) by (rewrite <- ln_1; apply ln_increasing; lra).
  apply Rdiv_lt_0_compat; assumption.
Qed.

Lemma log10_pow (n : nat) : log10 (10 ^ n) = INR n.
Proof.
  unfold log10. rewrite ln_pow by lra. field. pose proof ln_10_pos. lra.
Qed.

(** ** The gradient scaler *)


Lemma scale_table_length : List.length scale_table = 279%nat.
Proof. reflexivity. Qed.




Lemma scale_table_zero : nth 0 scale_table S754_nan = scale_zero.
Proof. reflexivity. Qed.









(** ** Sequencing *)

Section MonadFacts.

Context {E : Type}.

Lemma bind_ok {A B : Type} (m : M E A) (f : A -> M E B) (a : A) :
  outcome m = Ok a ->
  bind m f = (trace m ++ trace (f a), outcome (f a)).
Proof. unfold bind, outcome, trace. intros ->. reflexivity. Qed.

Lemma bind_err {A B : Type} (m : M E A) (f : A -> M E B) (e : exn) :
  outcome m = Err e -> bind m f = (trace m, Err e).
Proof. unfold bind, outcome, trace. intros ->. reflexivity. Qed.

Lemma bind_emit {B : Type} (e : E) (f : unit -> M E B) :
  bind (emit e) f = (e :: trace (f tt), outcome (f tt)).
Proof. reflexivity. Qed.

Lemma bind_lift_ok {A B : Type} (a : A) (f : A -> M E B) :
  bind (lift (Ok a)) f = f a.
Proof. unfold bind, lift; simpl. now destruct (f a). Qed.

Lemma bind_lift_err {A B : Type} (e : exn) (f : A -> M E B) :
  bind (lift (Err e)) f = ([], Err e).
Proof. reflexivity. Qed.

Lemma bind_ret {A B : Type} (a : A) (f : A -> M E B) : bind (ret a) f = f a.
Proof. unfold bind, ret; simpl. now destruct (f a). Qed.

Lemma trace_pair {A : Type} (t : list E) (r : result A) :
  trace (E := E) (t, r) = t.
Proof. reflexivity. Qed.

Lemma outcome_pair {A : Type} (t : list E) (r : result A) :
  outcome (E := E) (t, r) = r.
Proof. reflexivity. Qed.

Lemma pair_trace_outcome {A : Type} (m : M E A) : m = (trace m, outcome m).
Proof. now destruct m. Qed.

(** An exception in the body ends the loop. *)
Lemma for_each_err {X S : Type} (f : S -> X -> M E S) (x : X) (xs : list X)
    (s : S) (e : exn) :
  outcome (f s x) = Err e ->
  for_each f (x :: xs) s = (trace (f s x), Err e).
Proof. intro H. simpl. now apply bind_err. Qed.

Lemma for_each_ok {X S : Type} (f : S -> X -> M E S) (x : X) (xs : list X)
    (s s' : S) :
  outcome (f s x) = Ok s' ->
  for_each f (x :: xs) s
  = (trace (f s x) ++ trace (for_each f xs s'), outcome (for_each f xs s')).
Proof. intro H. simpl. now apply bind_ok. Qed.

End MonadFacts.

(** ** The training pass *)

Section TrainingFacts.

Context {batch params opt_state dataset loader : Type}.
Variable W : Collab batch params opt_state dataset loader.
Variable a : Args.
Variable oc : OptimizerConfig.

Lemma train_iteration_eq (st : TrainState params opt_state)
    (epoch_loss : pyfloat) (b : batch) :
  train_iteration W a oc (st, epoch_loss) b
  = ([EFetch true b;
      EStep (negb (found_inf (backward W (device_of a) (model st) b
                                 (get_scale (scaler st)))))],
     Ok (iteration_result W a oc st b,
         fadd epoch_loss (loss_item W (device_of a) true (model st) b))).
Proof.
  unfold iteration_result, train_iteration, scaler_step; simpl.
  destruct (found_inf _); reflexivity.
Qed.


Lemma iteration_result_scaler (st : TrainState params opt_state) (b : batch) :
  scaler (iteration_result W a oc st b)
  = update_scale (scaler_cfg W) (scaler st)
      (negb (found_inf (backward W (device_of a) (model st) b
                          (get_scale (scaler st))))).
Proof.
  unfold iteration_result, train_iteration, scaler_step; simpl.
  destruct (found_inf _); reflexivity.
Qed.

(** The inner loop never raises; it leaves the folded state and the sum of
    the losses it met. *)
Lemma train_loop_outcome (bs : list batch) (st : TrainState params opt_state)
    (epoch_loss : pyfloat) :
  outcome (for_each (train_iteration W a oc) bs (st, epoch_loss))
  = Ok (fold_left (iteration_result W a oc) bs st,
        fold_left fadd (iteration_losses W a oc st bs) epoch_loss).
Proof.
  revert st epoch_loss. induction bs as [| b bs IH]; intros st el.
  - reflexivity.
  - rewrite for_each_ok
      with (s' := (iteration_result W a oc st b,
                   fadd el (loss_item W (device_of a) true (model st) b)))
      by (now rewrite train_iteration_eq).
    unfold outcome at 1; simpl. apply IH.
Qed.

Lemma train_loop_trace (bs : list batch) (st : TrainState params opt_state)
    (epoch_loss : pyfloat) :
  forallb is_quiet (trace (for_each (train_iteration W a oc) bs (st, epoch_loss)))
  = true
  /\ console (trace (for_each (train_iteration W a oc) bs (st, epoch_loss))) = []
  /\ saves (trace (for_each (train_iteration W a oc) bs (st, epoch_loss))) = [].
Proof.
  revert st epoch_loss. induction bs as [| b bs IH]; intros st el.
  - repeat split.
  - rewrite for_each_ok
      with (s' := (iteration_result W a oc st b,
                   fadd el (loss_item W (device_of a) true (model st) b)))
      by (now rewrite train_iteration_eq).
    rewrite train_iteration_eq.
    specialize (IH (iteration_result W a oc st b)
                  (fadd el (loss_item W (device_of a) true (model st) b))).
    unfold trace in *. cbn [fst app forallb is_quiet andb console saves flat_map].
    exact IH.
Qed.

Lemma iteration_losses_length (bs : list batch) (st : TrainState params opt_state) :
  List.length (iteration_losses W a oc st bs) = List.length bs.
Proof.
  revert st. induction bs as [| b bs IH]; intro st; simpl; [reflexivity |].
  now rewrite IH.
Qed.

(** The scaler a training pass leaves is the initial one after one update
    per iteration. *)
Lemma train_loop_scaler (bs : list batch) (st : TrainState params opt_state) :
  exists flags,
    List.length flags = List.length bs /\
    scaler (fold_left (iteration_result W a oc) bs st)
    = fold_left (update_scale (scaler_cfg W)) flags (scaler st).
Proof.
  revert st. induction bs as [| b bs IH]; intro st; simpl.
  - exists []. split; reflexivity.
  - destruct (IH (iteration_result W a oc st b)) as (flags & Hl & Hs).
    exists (negb (found_inf (backward W (device_of a) (model st) b
                               (get_scale (scaler st)))) :: flags).
    split; [simpl; now rewrite Hl |].
    simpl. rewrite Hs, iteration_result_scaler. reflexivity.
Qed.

End TrainingFacts.

Section TrainingEpoch.

Context {batch params opt_state dataset loader : Type}.
Variable W : Collab batch params opt_state dataset loader.
Variable a : Args.
Variable oc : OptimizerConfig.

Lemma train_epoch_ok (dl : loader) (seed : Z)
    (st : TrainState params opt_state) (epoch : nat) (mean : pyfloat) :
  truediv (fsum (iteration_losses W a oc st (iter_loader W dl seed epoch)))
          (of_len (len_loader W dl)) = Ok mean ->
  train_epoch W a oc dl seed st epoch
  = (trace (for_each (train_iteration W a oc) (iter_loader W dl seed epoch)
              (st, Fin 0))
     ++ [EPrint (LTrainingLoss epoch mean)],
     Ok (fold_left (iteration_result W a oc) (iter_loader W dl seed epoch) st)).
Proof.
  intro Hdiv. unfold train_epoch.
  rewrite (bind_ok _ _ _ (train_loop_outcome W a oc _ st (Fin 0))).
  cbn [fst snd]. fold (fsum (iteration_losses W a oc st (iter_loader W dl seed epoch))).
  rewrite Hdiv, bind_lift_ok. reflexivity.
Qed.

Lemma train_epoch_err (dl : loader) (seed : Z)
    (st : TrainState params opt_state) (epoch : nat) (e : exn) :
  truediv (fsum (iteration_losses W a oc st (iter_loader W dl seed epoch)))
          (of_len (len_loader W dl)) = Err e ->
  train_epoch W a oc dl seed st epoch
  = (trace (for_each (train_iteration W a oc) (iter_loader W dl seed epoch)
              (st, Fin 0)),
     Err e).
Proof.
  intro Hdiv. unfold train_epoch.
  rewrite (bind_ok _ _ _ (train_loop_outcome W a oc _ st (Fin 0))).
  cbn [fst snd]. fold (fsum (iteration_losses W a oc st (iter_loader W dl seed epoch))).
  rewrite Hdiv, bind_lift_err. cbn [trace fst]. now rewrite app_nil_r.
Qed.

End TrainingEpoch.

Lemma fold_fadd_Fin (ls : list R) (x : R) :
  fold_left fadd (map Fin ls) (Fin x) = Fin (fold_left Rplus ls x).
Proof.
  revert x. induction ls as [| l ls IH]; intro x; simpl; [reflexivity |].
  apply IH.
Qed.

Lemma fsum_Fin (ls : list R) : fsum (map Fin ls) = Fin (Rsum ls).
Proof. apply fold_fadd_Fin. Qed.

Lemma console_app {batch params : Type} (t1 t2 : list (event batch params)) :
  console (t1 ++ t2) = console t1 ++ console t2.
Proof. unfold console. apply flat_map_app. Qed.

Lemma saves_app {batch params : Type} (t1 t2 : list (event batch params)) :
  saves (t1 ++ t2) = saves t1 ++ saves t2.
Proof. unfold saves. apply flat_map_app. Qed.

Lemma steps_app {batch params : Type} (t1 t2 : list (event batch params)) :
  steps (t1 ++ t2) = steps t1 ++ steps t2.
Proof. unfold steps. apply flat_map_app. Qed.




(** C5.  The mean training loss an epoch prints is the sum of the losses of
    all its iterations, skipped steps included, divided by the number of
    training batches; for the four losses 0.10, 0.08, 0.06, 0.04 it is
    0.07. *)
Theorem mean_training_loss
    {batch params opt_state dataset loader : Type}
    (W : Collab batch params opt_state dataset loader) (a : Args)
    (oc : OptimizerConfig) (dl : loader) (seed : Z)
    (st : TrainState params opt_state) (epoch : nat) :
  let bs := iter_loader W dl seed epoch in
  let losses := iteration_losses W a oc st bs in
  bs <> [] ->
  List.length losses = List.length bs /\
  exists mean,
    truediv (fsum losses) (of_len (List.length bs)) = Ok mean /\
    console (trace (train_epoch W a oc dl seed st epoch))
    = [LTrainingLoss epoch mean] /\
    (forall ls : list R,
        losses = map Fin ls -> mean = Fin (Rsum ls / INR (List.length ls))) /\
    (losses = map Fin [10 / 100; 8 / 100; 6 / 100; 4 / 100] ->
     mean = Fin (7 / 100)).
Proof.
  intros bs losses Hne.
  assert (Hlen : List.length losses = List.length bs)
    by apply iteration_losses_length.
  split; [exact Hlen |].
  assert (Hn : List.length bs <> 0%nat).
  { destruct bs; [contradiction | discriminate]. }
  destruct (truediv_len_ok (fsum losses) _ Hn) as (mean & Hmean).
  assert (Hreal : forall ls : list R,
             losses = map Fin ls -> mean = Fin (Rsum ls / INR (List.length ls))).
  { intros ls Hls. rewrite Hls, fsum_Fin in Hmean.
    assert (Hl : List.length bs = List.length ls)
      by (rewrite <- Hlen, Hls; apply length_map).
    rewrite Hl in Hmean, Hn. unfold of_len in Hmean.
    rewrite truediv_Fin in Hmean by (now apply not_0_INR).
    now injection Hmean as <-. }
  exists mean. split; [exact Hmean |]. split.
  - assert (Hdiv : truediv (fsum losses) (of_len (len_loader W dl)) = Ok mean).
    { rewrite <- (iter_loader_length W dl seed epoch). exact Hmean. }
    rewrite (train_epoch_ok W a oc dl seed st epoch mean Hdiv).
    destruct (train_loop_trace W a oc bs st (Fin 0)) as (_ & Hc & _).
    unfold trace at 1. cbn [fst]. rewrite console_app.
    fold bs. rewrite Hc. reflexivity.
  - split; [exact Hreal |].
    intro Hls. rewrite (Hreal _ Hls). f_equal. unfold Rsum; simpl. lra.
Qed.

Lemma mean_training_loss_witness :
  let W := toy [plain_batch (10 / 100); overflow_batch (8 / 100);
                plain_batch (6 / 100); plain_batch (4 / 100)] [] in
  let oc := make_optimizer default_args in
  let dl := [plain_batch (10 / 100); overflow_batch (8 / 100);
             plain_batch (6 / 100); plain_batch (4 / 100)] in
  let st := {| model := 0%nat; moments := tt;
               scaler := new_scaler default_scaler_cfg |} in
  iter_loader W dl 1%Z 0%nat <> [] /\
  iteration_losses W default_args oc st (iter_loader W dl 1%Z 0%nat)
  = map Fin [10 / 100; 8 / 100; 6 / 100; 4 / 100] /\
  console (trace (train_epoch W default_args oc dl 1%Z st 0%nat))
  = [LTrainingLoss 0 (Fin (7 / 100))].
Proof.
  intros W oc dl st.
  split; [discriminate |].
  split; [reflexivity |].
  destruct (mean_training_loss W default_args oc dl 1%Z st 0%nat)
    as (_ & mean & _ & Hc & _ & Hs); [discriminate |].
  rewrite Hc. rewrite (Hs eq_refl). reflexivity.
Defined.

(** ** The validation pass *)

Lemma psnr_of_loss_pos (L : R) :
  0 < L -> psnr_of_loss (Fin L) = Ok (Fin (psnr_value L)).
Proof.
  intro HL. unfold psnr_of_loss, psnr_value.
  rewrite truediv_Fin by lra. unfold math_log10.
  destruct (Rlt_dec 0 (1 / L)) as [_ | Hn].
  - reflexivity.
  - exfalso. apply Hn. apply Rdiv_lt_0_compat; lra.
Qed.

Lemma psnr_of_loss_zero : psnr_of_loss (Fin 0) = Err ZeroDivisionError.
Proof. unfold psnr_of_loss. now rewrite truediv_zero. Qed.

Lemma psnr_of_loss_neg (L : R) : L < 0 -> psnr_of_loss (Fin L) = Err ValueError.
Proof.
  intro HL. unfold psnr_of_loss.
  rewrite truediv_Fin by lra. unfold math_log10.
  destruct (Rlt_dec 0 (1 / L)) as [Hp | _]; [| reflexivity].
  exfalso. assert (H : 1 / L < 0).
  { unfold Rdiv. rewrite Rmult_1_l. now apply Rinv_lt_0_compat. }
  lra.
Qed.

(** A loss above 1 gives a negative metric. *)
Lemma psnr_value_neg (L : R) : 1 < L -> psnr_value L < 0.
Proof.
  intro HL. unfold psnr_value.
  assert (H : log10 (1 / L) < 0).
  { apply log10_lt_0. split.
    - apply Rdiv_lt_0_compat; lra.
    - apply Rmult_lt_reg_r with (r := L); [lra |].
      unfold Rdiv. rewrite Rmult_assoc, Rinv_l by lra. lra. }
  lra.
Qed.

Lemma psnr_value_pos (L : R) : 0 < L < 1 -> 0 < psnr_value L.
Proof.
  intros [H0 H1]. unfold psnr_value.
  assert (H : 0 < log10 (1 / L)).
  { apply log10_gt_0.
    apply Rmult_lt_reg_r with (r := L); [lra |].
    unfold Rdiv. rewrite Rmult_assoc, Rinv_l by lra. lra. }
  lra.
Qed.

Lemma psnr_value_ten_thousandth : psnr_value (1 / 10000) = 40.
Proof.
  unfold psnr_value.
  replace (1 / (1 / 10000)) with (10 ^ 4) by (simpl; field).
  rewrite log10_pow. simpl. lra.
Qed.

Lemma psnr_value_ten : psnr_value 10 = -10.
Proof.
  unfold psnr_value, log10.
  replace (1 / 10) with (/ 10) by field.
  rewrite ln_Rinv by lra. field. pose proof ln_10_pos. lra.
Qed.

Lemma psnr_fold_pos (Ls : list R) (x : R) :
  Forall (fun L => 0 < L) Ls ->
  psnr_fold (map Fin Ls) (Fin x)
  = Ok (Fin (fold_left Rplus (map psnr_value Ls) x)).
Proof.
  intro H. revert x. induction H as [| L Ls HL _ IH]; intro x; simpl.
  - reflexivity.
  - rewrite psnr_of_loss_pos by assumption. apply IH.
Qed.

(** With losses that are finite and not negative, a zero among them ends
    the loop with a division by zero. *)
Lemma psnr_fold_zero (ls : list pyfloat) (avg : pyfloat) :
  Forall (fun l => exists x, l = Fin x /\ 0 <= x) ls ->
  In (Fin 0) ls ->
  psnr_fold ls avg = Err ZeroDivisionError.
Proof.
  intro H. revert avg. induction H as [| l ls (x & -> & Hx) _ IH]; intros avg Hin.
  - destruct Hin.
  - simpl. destruct (Req_EM_T x 0) as [-> | Hnz].
    + now rewrite psnr_of_loss_zero.
    + rewrite psnr_of_loss_pos by lra. apply IH.
      destruct Hin as [Heq | Hin]; [| assumption].
      injection Heq as ->. now destruct Hnz.
Qed.

(** Whatever the other losses are, a zero among them ends the loop with an
    exception. *)
Lemma psnr_fold_zero_err (ls : list pyfloat) (avg : pyfloat) :
  In (Fin 0) ls -> exists e, psnr_fold ls avg = Err e.
Proof.
  revert avg. induction ls as [| l ls IH]; intros avg Hin.
  - destruct Hin.
  - simpl. destruct (psnr_of_loss l) as [p | e] eqn:Hp.
    + destruct Hin as [-> | Hin].
      * rewrite psnr_of_loss_zero in Hp. discriminate.
      * now apply IH.
    + now exists e.
Qed.

(** The metric of a batch is a number or NaN, never an infinity, and so is
    the sum of the metrics. *)
Lemma psnr_of_loss_range (l p : pyfloat) :
  psnr_of_loss l = Ok p -> is_inf p = false.
Proof.
  unfold psnr_of_loss, truediv, math_log10.
  destruct l as [y | | |]; simpl.
  - destruct (Req_EM_T y 0); [discriminate |].
    destruct (Rlt_dec 0 (1 / y)); [| discriminate].
    intro H. injection H as <-. reflexivity.
  - destruct (Rlt_dec 0 0); [lra | discriminate].
  - destruct (Rlt_dec 0 0); [lra | discriminate].
  - intro H. injection H as <-. reflexivity.
Qed.

Lemma fadd_range (x y : pyfloat) :
  is_inf x = false -> is_inf y = false -> is_inf (fadd x y) = false.
Proof. destruct x, y; simpl; intros; try reflexivity; discriminate. Qed.

Lemma psnr_fold_range (ls : list pyfloat) (avg r : pyfloat) :
  is_inf avg = false -> psnr_fold ls avg = Ok r -> is_inf r = false.
Proof.
  revert avg. induction ls as [| l ls IH]; intros avg Havg; simpl.
  - intro H. now injection H as <-.
  - destruct (psnr_of_loss l) as [p | e] eqn:Hp; [| discriminate].
    apply IH. apply fadd_range; [assumption |].
    now apply psnr_of_loss_range with (l := l).
Qed.

(** The mean of a sum that is a number or NaN, over a length that does not
    raise: a number when the sum is one, NaN when it is NaN. *)
Lemma truediv_len_range (avg mean : pyfloat) (n : nat) :
  is_inf avg = false ->
  truediv avg (of_len n) = Ok mean ->
  (avg = NaN /\ mean = NaN) \/
  (exists m, mean = Fin m /\ avg = Fin (m * INR n) /\ 0 < INR n).
Proof.
  intros Hr Hdiv.
  assert (Hn : n <> 0%nat).
  { intros ->. rewrite truediv_len_zero in Hdiv. discriminate. }
  destruct avg as [x | | |]; try discriminate.
  - right. unfold of_len in Hdiv.
    rewrite truediv_Fin in Hdiv by (now apply not_0_INR).
    injection Hdiv as <-. exists (x / INR n).
    split; [reflexivity |]. split.
    + f_equal. field. now apply not_0_INR.
    + apply lt_0_INR. lia.
  - left. split; [reflexivity |].
    unfold truediv, of_len in Hdiv.
    destruct (Req_EM_T (INR n) 0); [discriminate |]. now injection Hdiv.
Qed.

Section ValidationFacts.

Context {batch params opt_state dataset loader : Type}.
Variable W : Collab batch params opt_state dataset loader.
Variable a : Args.

Lemma eval_iteration_eq (m : params) (avg : pyfloat) (b : batch) :
  eval_iteration W a m avg b
  = ([EFetch false b],
     match psnr_of_loss (loss_item W (device_of a) false m b) with
     | Ok p => Ok (fadd avg p)
     | Err e => Err e
     end).
Proof.
  unfold eval_iteration. rewrite bind_emit.
  destruct (psnr_of_loss _) as [p | e].
  - rewrite bind_lift_ok. reflexivity.
  - rewrite bind_lift_err. reflexivity.
Qed.

Lemma eval_loop_outcome (m : params) (vs : list batch) (avg : pyfloat) :
  outcome (for_each (eval_iteration W a m) vs avg)
  = psnr_fold (map (loss_item W (device_of a) false m) vs) avg.
Proof.
  revert avg. induction vs as [| b vs IH]; intro avg; [reflexivity |].
  cbn [map psnr_fold].
  destruct (psnr_of_loss (loss_item W (device_of a) false m b)) as [p | e] eqn:Hp.
  - rewrite for_each_ok with (s' := fadd avg p)
      by (rewrite eval_iteration_eq, Hp; reflexivity).
    unfold outcome at 1; cbn [snd]. apply IH.
  - rewrite for_each_err with (e := e)
      by (rewrite eval_iteration_eq, Hp; reflexivity).
    reflexivity.
Qed.

Lemma eval_loop_trace (m : params) (vs : list batch) (avg : pyfloat) :
  forallb is_quiet (trace (for_each (eval_iteration W a m) vs avg)) = true
  /\ console (trace (for_each (eval_iteration W a m) vs avg)) = []
  /\ saves (trace (for_each (eval_iteration W a m) vs avg)) = []
  /\ steps (trace (for_each (eval_iteration W a m) vs avg)) = [].
Proof.
  revert avg. induction vs as [| b vs IH]; intro avg; [repeat split |].
  destruct (psnr_of_loss (loss_item W (device_of a) false m b)) as [p | e] eqn:Hp.
  - rewrite for_each_ok with (s' := fadd avg p)
      by (rewrite eval_iteration_eq, Hp; reflexivity).
    rewrite eval_iteration_eq. specialize (IH (fadd avg p)).
    unfold trace in *.
    cbn [fst app forallb is_quiet andb console saves steps flat_map].
    exact IH.
  - rewrite for_each_err with (e := e)
      by (rewrite eval_iteration_eq, Hp; reflexivity).
    rewrite eval_iteration_eq. repeat split.
Qed.

Lemma eval_epoch_ok (dl : loader) (seed : Z) (m : params) (epoch : nat)
    (avg mean : pyfloat) :
  psnr_fold (map (loss_item W (device_of a) false m) (iter_loader W dl seed epoch))
            (Fin 0) = Ok avg ->
  truediv avg (of_len (len_loader W dl)) = Ok mean ->
  eval_epoch W a dl seed m epoch
  = (trace (for_each (eval_iteration W a m) (iter_loader W dl seed epoch) (Fin 0))
     ++ [EPrint (LAveragePSNR mean)],
     Ok avg).
Proof.
  intros Hfold Hdiv. unfold eval_epoch.
  rewrite <- eval_loop_outcome in Hfold.
  rewrite (bind_ok _ _ _ Hfold), Hdiv, bind_lift_ok. reflexivity.
Qed.

Lemma eval_epoch_loop_err (dl : loader) (seed : Z) (m : params) (epoch : nat)
    (e : exn) :
  psnr_fold (map (loss_item W (device_of a) false m) (iter_loader W dl seed epoch))
            (Fin 0) = Err e ->
  eval_epoch W a dl seed m epoch
  = (trace (for_each (eval_iteration W a m) (iter_loader W dl seed epoch) (Fin 0)),
     Err e).
Proof.
  intro Hfold. unfold eval_epoch.
  rewrite <- eval_loop_outcome in Hfold.
  now rewrite (bind_err _ _ _ Hfold).
Qed.

Lemma eval_epoch_div_err (dl : loader) (seed : Z) (m : params) (epoch : nat)
    (avg : pyfloat) (e : exn) :
  psnr_fold (map (loss_item W (device_of a) false m) (iter_loader W dl seed epoch))
            (Fin 0) = Ok avg ->
  truediv avg (of_len (len_loader W dl)) = Err e ->
  eval_epoch W a dl seed m epoch
  = (trace (for_each (eval_iteration W a m) (iter_loader W dl seed epoch) (Fin 0)),
     Err e).
Proof.
  intros Hfold Hdiv. unfold eval_epoch.
  rewrite <- eval_loop_outcome in Hfold.
  rewrite (bind_ok _ _ _ Hfold), Hdiv, bind_lift_err.
  cbn [trace fst]. now rewrite app_nil_r.
Qed.

End ValidationFacts.

(** ** One epoch *)

Lemma forallb_quiet_app {batch params : Type} (t1 t2 : list (event batch params)) :
  forallb is_quiet (t1 ++ t2) = forallb is_quiet t1 && forallb is_quiet t2.
Proof. apply forallb_app. Qed.

Section EpochFacts.

Context {batch params opt_state dataset loader : Type}.
Variable W : Collab batch params opt_state dataset loader.
Variable a : Args.
Variable oc : OptimizerConfig.

Lemma train_epoch_cases (dl : loader) (seed : Z)
    (st : TrainState params opt_state) (epoch : nat) :
  forallb is_quiet (trace (train_epoch W a oc dl seed st epoch)) = true /\
  saves (trace (train_epoch W a oc dl seed st epoch)) = [] /\
  ((exists e, outcome (train_epoch W a oc dl seed st epoch) = Err e) \/
   outcome (train_epoch W a oc dl seed st epoch)
   = Ok (fold_left (iteration_result W a oc) (iter_loader W dl seed epoch) st)).
Proof.
  destruct (train_loop_trace W a oc (iter_loader W dl seed epoch) st (Fin 0))
    as (Hq & _ & Hs).
  destruct (truediv (fsum (iteration_losses W a oc st (iter_loader W dl seed epoch)))
              (of_len (len_loader W dl))) as [mean | e] eqn:Hdiv.
  - rewrite (train_epoch_ok W a oc dl seed st epoch mean Hdiv).
    unfold trace, outcome in *. cbn [fst snd].
    rewrite forallb_quiet_app, saves_app, Hq, Hs. repeat split. now right.
  - rewrite (train_epoch_err W a oc dl seed st epoch e Hdiv).
    unfold trace, outcome in *. cbn [fst snd].
    repeat split; try assumption. left. now exists e.
Qed.

Lemma eval_epoch_cases (dl : loader) (seed : Z) (m : params) (epoch : nat) :
  (exists e,
      outcome (eval_epoch W a dl seed m epoch) = Err e /\
      forallb is_quiet (trace (eval_epoch W a dl seed m epoch)) = true /\
      saves (trace (eval_epoch W a dl seed m epoch)) = []) \/
  (exists pre avg mean,
      forallb is_quiet pre = true /\
      psnr_fold (map (loss_item W (device_of a) false m)
                   (iter_loader W dl seed epoch)) (Fin 0) = Ok avg /\
      truediv avg (of_len (len_loader W dl)) = Ok mean /\
      eval_epoch W a dl seed m epoch
      = (pre ++ [EPrint (LAveragePSNR mean)], Ok avg)).
Proof.
  destruct (eval_loop_trace W a m (iter_loader W dl seed epoch) (Fin 0))
    as (Hq & _ & Hs & _).
  destruct (psnr_fold (map (loss_item W (device_of a) false m)
                         (iter_loader W dl seed epoch)) (Fin 0))
    as [avg | e] eqn:Hfold.
  - destruct (truediv avg (of_len (len_loader W dl))) as [mean | e] eqn:Hdiv.
    + right. exists (trace (for_each (eval_iteration W a m)
                              (iter_loader W dl seed epoch) (Fin 0))), avg, mean.
      repeat split; try assumption.
      now apply eval_epoch_ok.
    + left. exists e.
      rewrite (eval_epoch_div_err W a dl seed m epoch avg e Hfold Hdiv).
      repeat split; assumption.
  - left. exists e.
    rewrite (eval_epoch_loop_err W a dl seed m epoch e Hfold).
    repeat split; assumption.
Qed.

Lemma save_model_eq (s : LoopState params opt_state)
    (st : TrainState params opt_state) (avg : pyfloat) (epoch : nat) :
  save_model (batch := batch) a s st avg epoch
  = (ESave (epoch_path epoch) (model st)
     :: (if pygt avg (best_psnr s) then [ESave (best_path a) (model st)] else []),
     Ok {| train_state := st;
           best_psnr := if pygt avg (best_psnr s) then avg else best_psnr s |}).
Proof.
  unfold save_model. rewrite bind_emit.
  destruct (pygt avg (best_psnr s)); reflexivity.
Qed.

Lemma epoch_body_train_err (tdl vdl : loader) (seed : Z)
    (s : LoopState params opt_state) (epoch : nat) (e : exn) :
  outcome (train_epoch W a oc tdl seed (train_state s) epoch) = Err e ->
  epoch_body W a oc tdl vdl seed s epoch
  = (trace (train_epoch W a oc tdl seed (train_state s) epoch), Err e).
Proof. intro H. unfold epoch_body. now rewrite (bind_err _ _ _ H). Qed.

Lemma epoch_body_eval_err (tdl vdl : loader) (seed : Z)
    (s : LoopState params opt_state) (epoch : nat)
    (st : TrainState params opt_state) (e : exn) :
  outcome (train_epoch W a oc tdl seed (train_state s) epoch) = Ok st ->
  outcome (eval_epoch W a vdl seed (model st) epoch) = Err e ->
  epoch_body W a oc tdl vdl seed s epoch
  = (trace (train_epoch W a oc tdl seed (train_state s) epoch)
     ++ trace (eval_epoch W a vdl seed (model st) epoch), Err e).
Proof.
  intros Ht He. unfold epoch_body.
  rewrite (bind_ok _ _ _ Ht), (bind_err _ _ _ He). reflexivity.
Qed.

Lemma epoch_body_ok (tdl vdl : loader) (seed : Z)
    (s : LoopState params opt_state) (epoch : nat)
    (st : TrainState params opt_state) (avg : pyfloat) :
  outcome (train_epoch W a oc tdl seed (train_state s) epoch) = Ok st ->
  outcome (eval_epoch W a vdl seed (model st) epoch) = Ok avg ->
  epoch_body W a oc tdl vdl seed s epoch
  = (trace (train_epoch W a oc tdl seed (train_state s) epoch)
     ++ trace (eval_epoch W a vdl seed (model st) epoch)
     ++ ESave (epoch_path epoch) (model st)
        :: (if pygt avg (best_psnr s) then [ESave (best_path a) (model st)]
            else []),
     Ok {| train_state := st;
           best_psnr := if pygt avg (best_psnr s) then avg else best_psnr s |}).
Proof.
  intros Ht He. unfold epoch_body.
  rewrite (bind_ok _ _ _ Ht), (bind_ok _ _ _ He), save_model_eq.
  reflexivity.
Qed.

(** The shape of an epoch: it ends in an exception before its validation
    report and before any file, or it goes through: report, epoch file and,
    when the sum of the metrics exceeds the best so far, best file. *)
Lemma epoch_body_cases (tdl vdl : loader) (seed : Z)
    (s : LoopState params opt_state) (epoch : nat) :
  (exists e,
      outcome (epoch_body W a oc tdl vdl seed s epoch) = Err e /\
      forallb is_quiet (trace (epoch_body W a oc tdl vdl seed s epoch)) = true) \/
  (exists pre st avg mean,
      forallb is_quiet pre = true /\
      is_inf avg = false /\
      truediv avg (of_len (len_loader W vdl)) = Ok mean /\
      epoch_body W a oc tdl vdl seed s epoch
      = (pre ++ EPrint (LAveragePSNR mean)
             :: ESave (epoch_path epoch) (model st)
             :: (if pygt avg (best_psnr s)
                 then [ESave (best_path a) (model st)] else []),
         Ok {| train_state := st;
               best_psnr := if pygt avg (best_psnr s) then avg
                            else best_psnr s |})).
Proof.
  destruct (train_epoch_cases tdl seed (train_state s) epoch)
    as (Hq & _ & [(e & He) | Hok]).
  - left. exists e. rewrite (epoch_body_train_err tdl vdl seed s epoch e He).
    split; [reflexivity | exact Hq].
  - set (st := fold_left (iteration_result W a oc)
                 (iter_loader W tdl seed epoch) (train_state s)) in *.
    destruct (eval_epoch_cases vdl seed (model st) epoch)
      as [(e & He & Hqe & _) | (pre & avg & mean & Hpre & Hfold & Hdiv & Heq)].
    + left. exists e.
      rewrite (epoch_body_eval_err tdl vdl seed s epoch st e Hok He).
      split; [reflexivity |].
      unfold trace in *. cbn [fst]. now rewrite forallb_quiet_app, Hq, Hqe.
    + right.
      exists (trace (train_epoch W a oc tdl seed (train_state s) epoch) ++ pre),
        st, avg, mean.
      split; [unfold trace in *; now rewrite forallb_quiet_app, Hq, Hpre |].
      split; [exact (psnr_fold_range _ (Fin 0) avg eq_refl Hfold) |].
      split; [exact Hdiv |].
      assert (He : outcome (eval_epoch W a vdl seed (model st) epoch) = Ok avg)
        by (now rewrite Heq).
      rewrite (epoch_body_ok tdl vdl seed s epoch st avg Hok He).
      rewrite Heq. unfold trace at 2. cbn [fst].
      now rewrite <- !app_assoc.
Qed.

End EpochFacts.

Lemma spec_psnr_peak_1 (L : R) : spec_psnr 1 L = 10 * log10 (1 / L).
Proof. unfold spec_psnr. do 2 f_equal. simpl. now rewrite !Rmult_1_l. Qed.

(** C6.  For a validation batch of loss [L > 0] the loop computes the
    metric [10 * log10(1 / L)], the specification's formula at reference
    peak 1; a loss of 0.0001 gives 40; and the value an epoch reports is the
    arithmetic mean of the metrics of its batches. *)
Theorem validation_psnr
    {batch params opt_state dataset loader : Type}
    (W : Collab batch params opt_state dataset loader) (a : Args)
    (dl : loader) (seed : Z) (m : params) (epoch : nat) (Ls : list R) :
  let vs := iter_loader W dl seed epoch in
  map (loss_item W (device_of a) false m) vs = map Fin Ls ->
  Forall (fun L => 0 < L) Ls ->
  vs <> [] ->
  (forall (b : batch) (L : R) (avg : pyfloat),
      loss_item W (device_of a) false m b = Fin L -> 0 < L ->
      outcome (eval_iteration W a m avg b)
      = Ok (fadd avg (Fin (10 * log10 (1 / L))))
      /\ 10 * log10 (1 / L) = spec_psnr 1 L) /\
  psnr_of_loss (Fin (1 / 10000)) = Ok (Fin 40) /\
  console (trace (eval_epoch W a dl seed m epoch))
  = [LAveragePSNR
       (Fin (Rsum (map (fun L => 10 * log10 (1 / L)) Ls)
             / INR (List.length Ls)))].
Proof.
  intros vs Hls Hpos Hne.
  split; [| split].
  - intros b L avg Hb HL. split.
    + rewrite eval_iteration_eq, Hb, psnr_of_loss_pos by assumption.
      reflexivity.
    + symmetry. apply spec_psnr_peak_1.
  - rewrite psnr_of_loss_pos by lra. now rewrite psnr_value_ten_thousandth.
  - assert (Hlen : List.length Ls = len_loader W dl).
    { rewrite <- (iter_loader_length W dl seed epoch).
      fold vs. rewrite <- (length_map Fin Ls), <- Hls. apply length_map. }
    assert (Hn : len_loader W dl <> 0%nat).
    { rewrite <- (iter_loader_length W dl seed epoch). fold vs.
      destruct vs; [contradiction | discriminate]. }
    assert (Hfold : psnr_fold (map (loss_item W (device_of a) false m) vs) (Fin 0)
                    = Ok (Fin (Rsum (map psnr_value Ls)))).
    { rewrite Hls. now apply psnr_fold_pos. }
    assert (Hdiv : truediv (Fin (Rsum (map psnr_value Ls)))
                     (of_len (len_loader W dl))
                   = Ok (Fin (Rsum (map psnr_value Ls) / INR (List.length Ls)))).
    { rewrite Hlen. unfold of_len. apply truediv_Fin. now apply not_0_INR. }
    rewrite (eval_epoch_ok W a dl seed m epoch _ _ Hfold Hdiv).
    destruct (eval_loop_trace W a m vs (Fin 0)) as (_ & Hc & _).
    unfold trace at 1. cbn [fst]. rewrite console_app. fold vs.
    rewrite Hc. reflexivity.
Qed.

Lemma validation_psnr_witness :
  let W := toy [] [plain_batch (1 / 10000); plain_batch (1 / 100)] in
  let dl := [plain_batch (1 / 10000); plain_batch (1 / 100)] in
  map (loss_item W (device_of default_args) false 0%nat)
      (iter_loader W dl 1%Z 0%nat) = map Fin [1 / 10000; 1 / 100] /\
  Forall (fun L => 0 < L) [1 / 10000; 1 / 100] /\
  iter_loader W dl 1%Z 0%nat <> [] /\
  console (trace (eval_epoch W default_args dl 1%Z 0%nat 0%nat))
  = [LAveragePSNR
       (Fin (Rsum (map (fun L => 10 * log10 (1 / L)) [1 / 10000; 1 / 100])
             / INR 2))].
Proof.
  intros W dl.
  assert (Hpos : Forall (fun L => 0 < L) [1 / 10000; 1 / 100]).
  { repeat constructor; lra. }
  split; [reflexivity |].
  split; [exact Hpos |].
  split; [discriminate |].
  destruct (validation_psnr W default_args dl 1%Z 0%nat 0%nat
              [1 / 10000; 1 / 100] eq_refl Hpos) as (_ & _ & Hc).
  - discriminate.
  - exact Hc.
Defined.

(** C9.  When a validation batch has a loss of exactly zero, the epoch
    ends in an exception before it reports a metric or writes a file, and
    the exception ends the whole epoch loop; with losses that are finite
    and not negative, as mean squared errors are, the exception is the
    division by zero of [1 / loss]. *)
Theorem zero_loss_aborts
    {batch params opt_state dataset loader : Type}
    (W : Collab batch params opt_state dataset loader) (a : Args)
    (se : Session params loader) (s : LoopState params opt_state)
    (epoch : nat) (rest : list nat) (st : TrainState params opt_state) :
  let losses := map (loss_item W (device_of a) false (model st))
                  (iter_loader W (val_dataloader se) (seed_used se) epoch) in
  outcome (train_epoch W a (make_optimizer a) (train_dataloader se)
             (seed_used se) (train_state s) epoch) = Ok st ->
  In (Fin 0) losses ->
  exists e,
    outcome (eval_epoch W a (val_dataloader se) (seed_used se) (model st) epoch)
    = Err e /\
    outcome (run_epochs W a se (epoch :: rest) s) = Err e /\
    forallb is_quiet (trace (run_epochs W a se (epoch :: rest) s)) = true /\
    (Forall (fun l => exists x, l = Fin x /\ 0 <= x) losses ->
     e = ZeroDivisionError).
Proof.
  intros losses Htrain Hzero.
  destruct (psnr_fold_zero_err losses (Fin 0) Hzero) as (e & Hfold).
  exists e.
  pose proof (eval_epoch_loop_err W a (val_dataloader se) (seed_used se)
                (model st) epoch e Hfold) as Heval.
  assert (Hout : outcome (eval_epoch W a (val_dataloader se) (seed_used se)
                            (model st) epoch) = Err e)
    by (now rewrite Heval).
  pose proof (epoch_body_eval_err W a (make_optimizer a) (train_dataloader se)
                (val_dataloader se) (seed_used se) s epoch st e Htrain Hout)
    as Hbody.
  assert (Hrun : run_epochs W a se (epoch :: rest) s
                 = (trace (epoch_body W a (make_optimizer a) (train_dataloader se)
                             (val_dataloader se) (seed_used se) s epoch), Err e)).
  { unfold run_epochs. apply for_each_err. now rewrite Hbody. }
  split; [exact Hout |]. split; [now rewrite Hrun |]. split.
  - rewrite Hrun, Hbody. unfold trace at 1 2. cbn [fst].
    destruct (train_epoch_cases W a (make_optimizer a) (train_dataloader se)
                (seed_used se) (train_state s) epoch) as (Hq & _).
    destruct (eval_loop_trace W a (model st)
                (iter_loader W (val_dataloader se) (seed_used se) epoch) (Fin 0))
      as (Hqe & _).
    rewrite Heval. unfold trace in *. cbn [fst].
    now rewrite forallb_quiet_app, Hq, Hqe.
  - intro Hnn. rewrite (psnr_fold_zero losses (Fin 0) Hnn Hzero) in Hfold.
    now injection Hfold.
Qed.

Lemma train_epoch_outcome_ok
    {batch params opt_state dataset loader : Type}
    (W : Collab batch params opt_state dataset loader) (a : Args)
    (oc : OptimizerConfig) (dl : loader) (seed : Z)
    (st : TrainState params opt_state) (epoch : nat) :
  len_loader W dl <> 0%nat ->
  outcome (train_epoch W a oc dl seed st epoch)
  = Ok (fold_left (iteration_result W a oc) (iter_loader W dl seed epoch) st).
Proof.
  intro Hn.
  destruct (truediv_len_ok
              (fsum (iteration_losses W a oc st (iter_loader W dl seed epoch)))
              _ Hn) as (mean & Hmean).
  now rewrite (train_epoch_ok W a oc dl seed st epoch mean Hmean).
Qed.

Lemma zero_loss_aborts_witness :
  let W := toy [plain_batch 1] [plain_batch (1 / 100); plain_batch 0] in
  let se := {| train_dataloader := [plain_batch 1];
               val_dataloader := [plain_batch (1 / 100); plain_batch 0];
               seed_used := 42%Z; initial_model := 0%nat |} in
  let s := initial_state W se in
  let st := fold_left (iteration_result W default_args
                         (make_optimizer default_args))
              [plain_batch 1] (train_state s) in
  outcome (train_epoch W default_args (make_optimizer default_args)
             (train_dataloader se) (seed_used se) (train_state s) 0%nat)
  = Ok st /\
  In (Fin 0) (map (loss_item W (device_of default_args) false (model st))
                (iter_loader W (val_dataloader se) (seed_used se) 0%nat)) /\
  outcome (run_epochs W default_args se [0%nat; 1%nat] s)
  = Err ZeroDivisionError.
Proof.
  intros W se s st.
  assert (Ht : outcome (train_epoch W default_args (make_optimizer default_args)
                          (train_dataloader se) (seed_used se) (train_state s)
                          0%nat) = Ok st).
  { apply (train_epoch_outcome_ok W). discriminate. }
  assert (Hin : In (Fin 0)
                  (map (loss_item W (device_of default_args) false (model st))
                     (iter_loader W (val_dataloader se) (seed_used se) 0%nat))).
  { right. left. reflexivity. }
  split; [exact Ht |]. split; [exact Hin |].
  destruct (zero_loss_aborts W default_args se s 0%nat [1%nat] st Ht Hin)
    as (e & _ & Hrun & _ & He).
  rewrite Hrun. f_equal. apply He.
  repeat constructor.
  - exists (1 / 100). split; [reflexivity | lra].
  - exists 0. split; [reflexivity | lra].
Defined.

(** ** Reading the reports of a run *)

Section ReportFacts.

Context {batch params : Type}.
Variable a : Args.

Lemma epoch_path_not_best (epoch : nat) :
  String.eqb (epoch_path epoch) (best_path a) = false.
Proof. reflexivity. Qed.

Lemma best_saved_next_quiet_app (pre rest : list (event batch params)) :
  forallb is_quiet pre = true ->
  best_saved_next a (pre ++ rest) = best_saved_next a rest.
Proof.
  induction pre as [| e pre IH]; intro H; [reflexivity |].
  simpl in H. apply andb_true_iff in H as (He & Hpre).
  destruct e as [d | l | t b | ap | p sd]; simpl;
    try (now apply IH); try discriminate.
  destruct l; try (now apply IH); discriminate.
Qed.

Lemma epoch_reports_quiet_app (pre rest : list (event batch params)) :
  forallb is_quiet pre = true ->
  epoch_reports a (pre ++ rest) = epoch_reports a rest.
Proof.
  induction pre as [| e pre IH]; intro H; [reflexivity |].
  simpl in H. apply andb_true_iff in H as (He & Hpre).
  destruct e as [d | l | t b | ap | p sd]; simpl;
    try (now apply IH); try discriminate.
  destruct l; try (now apply IH); discriminate.
Qed.

Lemma best_saved_next_quiet (tr : list (event batch params)) :
  forallb is_quiet tr = true -> best_saved_next a tr = false.
Proof.
  intro H. rewrite <- (app_nil_r tr). now rewrite best_saved_next_quiet_app.
Qed.

Lemma epoch_reports_quiet (tr : list (event batch params)) :
  forallb is_quiet tr = true -> epoch_reports a tr = [].
Proof.
  intro H. rewrite <- (app_nil_r tr). now rewrite epoch_reports_quiet_app.
Qed.

(** The entry of an epoch that went through. *)
Lemma epoch_reports_epoch (pre rest : list (event batch params))
    (mean : pyfloat) (epoch : nat) (sd : params) (w : bool) :
  forallb is_quiet pre = true ->
  best_saved_next a rest = false ->
  epoch_reports a
    ((pre ++ EPrint (LAveragePSNR mean)
          :: ESave (epoch_path epoch) sd
          :: (if w then [ESave (best_path a) sd] else [])) ++ rest)
  = (mean, w) :: epoch_reports a rest.
Proof.
  intros Hpre Hrest. rewrite <- app_assoc.
  rewrite epoch_reports_quiet_app by assumption.
  cbn [app epoch_reports best_saved_next].
  rewrite epoch_path_not_best.
  destruct w; cbn [app epoch_reports best_saved_next].
  - now rewrite String.eqb_refl.
  - now rewrite Hrest.
Qed.

Lemma best_saved_next_epoch (pre rest : list (event batch params))
    (mean : pyfloat) :
  forallb is_quiet pre = true ->
  best_saved_next a ((pre ++ EPrint (LAveragePSNR mean) :: rest)) = false.
Proof.
  intro Hpre. now rewrite best_saved_next_quiet_app.
Qed.

End ReportFacts.

(** ** The optimizer *)

(** C7.  The optimizer's default rate is the base rate times 0.1; each of
    the three groups [conv1], [conv2], [conv3] carries the base rate itself;
    every parameter of the model is in exactly one group and the rate that
    applies to it is the base rate. *)
Theorem optimizer_rates (a : Args) :
  defaults_lr (make_optimizer a) = fmul (lr a) (Fin (1 / 10)) /\
  map pg_lr (param_groups (make_optimizer a)) = [lr a; lr a; lr a] /\
  map pg_params (param_groups (make_optimizer a))
  = map layer_parameters [conv1; conv2; conv3] /\
  Forall (fun p => groups_holding (make_optimizer a) p = 1%nat /\
                   rate_of (make_optimizer a) p = Some (lr a))
         model_parameters.
Proof.
  split; [reflexivity |]. split; [reflexivity |]. split; [reflexivity |].
  repeat constructor.
Qed.

(** A group that gives no rate of its own would take the default one. *)
Lemma add_param_group_default (d : pyfloat) (ps : list param_id) :
  pg_lr (add_param_group d {| go_params := ps; go_lr := None |}) = d.
Proof. reflexivity. Qed.

(** ** The whole run *)

Section RunFacts.

Context {batch params opt_state dataset loader : Type}.
Variable W : Collab batch params opt_state dataset loader.
Variable a : Args.

(** The set-up prints the options, the seed and perhaps the warning, and
    makes the output directory, whether or not a collaborator then fails. *)
Lemma setup_trace :
  trace (setup W a)
  = [EPrint (LNamespace a); EMakedirs "weights";
     EPrint (LRandomSeed (effective_seed W a))]
    ++ (if cuda_is_available W && negb (cuda a)
        then [EPrint LCudaWarning] else []).
Proof.
  unfold setup. rewrite !bind_emit. unfold trace. cbn [fst]. do 3 f_equal.
  destruct (cuda_is_available W && negb (cuda a)).
  - rewrite bind_emit. cbn [fst]. f_equal.
    destruct (DatasetFromFolder W _ _) as [d1 | e]; [| reflexivity].
    rewrite bind_lift_ok.
    destruct (DatasetFromFolder W _ _) as [d2 | e]; [| reflexivity].
    rewrite bind_lift_ok.
    destruct (DataLoader W d1 _ _ _) as [l1 | e]; [| reflexivity].
    rewrite bind_lift_ok.
    destruct (DataLoader W d2 _ _ _) as [l2 | e]; [| reflexivity].
    rewrite bind_lift_ok.
    destruct (String.eqb (weights a) ""); [reflexivity |].
    destruct (torch_load W _ _); reflexivity.
  - rewrite bind_ret.
    destruct (DatasetFromFolder W _ _) as [d1 | e]; [| reflexivity].
    rewrite bind_lift_ok.
    destruct (DatasetFromFolder W _ _) as [d2 | e]; [| reflexivity].
    rewrite bind_lift_ok.
    destruct (DataLoader W d1 _ _ _) as [l1 | e]; [| reflexivity].
    rewrite bind_lift_ok.
    destruct (DataLoader W d2 _ _ _) as [l2 | e]; [| reflexivity].
    rewrite bind_lift_ok.
    destruct (String.eqb (weights a) ""); [reflexivity |].
    destruct (torch_load W _ _); reflexivity.
Qed.

Lemma setup_quiet : forallb is_quiet (trace (setup W a)) = true.
Proof.
  rewrite setup_trace.
  destruct (cuda_is_available W && negb (cuda a)); reflexivity.
Qed.

Lemma setup_no_work : filter is_work (trace (setup W a)) = [].
Proof.
  rewrite setup_trace.
  destruct (cuda_is_available W && negb (cuda a)); reflexivity.
Qed.

Lemma main_setup_err (e : exn) :
  outcome (setup W a) = Err e -> main W a = (trace (setup W a), Err e).
Proof. intro H. unfold main. now apply bind_err. Qed.

Lemma main_setup_ok (se : Session params loader) :
  outcome (setup W a) = Ok se ->
  main W a
  = (trace (setup W a)
     ++ trace (run_epochs W a se (epoch_range a) (initial_state W se)),
     outcome (run_epochs W a se (epoch_range a) (initial_state W se))).
Proof.
  intro H. unfold main.
  exact (bind_ok (setup W a)
           (fun se0 => run_epochs W a se0 (epoch_range a) (initial_state W se0))
           se H).
Qed.

(** Whatever follows an epoch loop's first validation report, the loop
    does not begin with a write of the best file. *)
Lemma run_epochs_no_early_best (se : Session params loader) (ks : list nat)
    (s : LoopState params opt_state) :
  best_saved_next a (trace (run_epochs W a se ks s)) = false.
Proof.
  destruct ks as [| k ks]; [reflexivity |].
  unfold run_epochs.
  destruct (epoch_body_cases W a (make_optimizer a) (train_dataloader se)
              (val_dataloader se) (seed_used se) s k)
    as [(e & He & Hq) | (pre & st & avg & mean & Hpre & _ & _ & Heq)].
  - rewrite (for_each_err _ _ _ _ _ He). unfold trace at 1. cbn [fst].
    now apply best_saved_next_quiet.
  - rewrite for_each_ok
      with (s' := {| train_state := st;
                     best_psnr := if pygt avg (best_psnr s) then avg
                                  else best_psnr s |})
      by (now rewrite Heq).
    rewrite Heq. unfold trace at 1 2. cbn [fst].
    rewrite <- app_assoc. now rewrite best_saved_next_quiet_app.
Qed.

End RunFacts.

Section RunPolicy.

Context {batch params opt_state dataset loader : Type}.
Variable W : Collab batch params opt_state dataset loader.
Variable a : Args.

(** The reports of an epoch loop, one epoch at a time: the first epoch
    ends the loop without a report, or it reports its mean, overwrites the
    best file exactly when the sum of its metrics exceeds the best so far,
    and hands the larger of the two to the rest of the loop. *)
Lemma run_epochs_reports_step (se : Session params loader) (k0 : nat)
    (ks : list nat) (s : LoopState params opt_state) :
  epoch_reports a (trace (run_epochs W a se (k0 :: ks) s)) = [] \/
  exists avg mean s',
    ((avg = NaN /\ mean = NaN) \/
     (exists m, mean = Fin m /\
                avg = Fin (m * INR (len_loader W (val_dataloader se))) /\
                0 < INR (len_loader W (val_dataloader se)))) /\
    best_psnr s' = (if pygt avg (best_psnr s) then avg else best_psnr s) /\
    epoch_reports a (trace (run_epochs W a se (k0 :: ks) s))
    = (mean, pygt avg (best_psnr s))
      :: epoch_reports a (trace (run_epochs W a se ks s')).
Proof.
  unfold run_epochs.
  destruct (epoch_body_cases W a (make_optimizer a) (train_dataloader se)
              (val_dataloader se) (seed_used se) s k0)
    as [(e & He & Hq) | (pre & st & avg & mean & Hpre & Hr & Hdiv & Heq)].
  - left. rewrite (for_each_err _ _ _ _ _ He). unfold trace at 1. cbn [fst].
    now apply epoch_reports_quiet.
  - right.
    exists avg, mean,
      {| train_state := st;
         best_psnr := if pygt avg (best_psnr s) then avg else best_psnr s |}.
    split; [now apply truediv_len_range |].
    split; [reflexivity |].
    rewrite for_each_ok
      with (s' := {| train_state := st;
                     best_psnr := if pygt avg (best_psnr s) then avg
                                  else best_psnr s |})
      by (now rewrite Heq).
    rewrite Heq. unfold trace at 1 2. cbn [fst].
    apply epoch_reports_epoch; [assumption |].
    apply (run_epochs_no_early_best W a se ks).
Qed.

(** The overwrite rule along an epoch loop entered with best value [b]. *)
Lemma run_epochs_policy (se : Session params loader) (ks : list nat) :
  forall (s : LoopState params opt_state) (b : R),
    best_psnr s = Fin b ->
    forall (k : nat) (mk : pyfloat) (w : bool),
      nth_error (epoch_reports a (trace (run_epochs W a se ks s))) k
      = Some (mk, w) ->
      (w = true <->
       exists m, mk = Fin m /\
         b < m * INR (len_loader W (val_dataloader se)) /\
         forall j mj wj, (j < k)%nat ->
           nth_error (epoch_reports a (trace (run_epochs W a se ks s))) j
           = Some (Fin mj, wj) -> mj < m).
Proof.
  induction ks as [| k0 ks IH]; intros s b Hb k mk w Hk.
  - destruct k; discriminate.
  - destruct (run_epochs_reports_step se k0 ks s)
      as [Hnil | (avg & mean & s' & Hrange & Hbest & Hrep)].
    + rewrite Hnil in Hk. destruct k; discriminate.
    + rewrite Hrep in *. rewrite Hb in *.
      set (N := INR (len_loader W (val_dataloader se))) in *.
      destruct Hrange as [(-> & ->) | (m0 & -> & -> & HN)].
      * (* the first epoch reports NaN: nothing written, best unchanged *)
        rewrite pygt_NaN_l in *.
        destruct k as [| k]; cbn [nth_error] in Hk.
        -- injection Hk as <- <-. split; [discriminate |].
           intros (m & Hm & _). discriminate.
        -- rewrite (IH s' b Hbest k mk w Hk).
           split; intros (m & Hm & Hlt & Hprev); exists m;
             (split; [assumption |]); (split; [assumption |]).
           ++ intros [| j] mj wj Hj Hnth; cbn [nth_error] in Hnth.
              ** discriminate.
              ** apply (Hprev j mj wj); [lia | assumption].
           ++ intros j mj wj Hj Hnth.
              apply (Hprev (S j) mj wj); [lia | exact Hnth].
      * (* the first epoch reports the number m0 *)
        assert (Hbest' : best_psnr s'
                         = Fin (if Rlt_dec b (m0 * N) then m0 * N else b)).
        { rewrite Hbest. unfold pygt. now destruct (Rlt_dec b (m0 * N)). }
        destruct k as [| k]; cbn [nth_error] in Hk.
        -- injection Hk as <- <-. split.
           ++ intro Hw.
              assert (Hlt : b < m0 * N)
                by (destruct (Rlt_dec b (m0 * N)); [assumption | discriminate]).
              exists m0. split; [reflexivity |].
              split; [assumption |]. intros j mj wj Hj. lia.
           ++ intros (m & Hm & Hlt & _). injection Hm as <-.
              destruct (Rlt_dec b (m0 * N)); [reflexivity | contradiction].
        -- rewrite (IH s' _ Hbest' k mk w Hk).
           split; intros (m & Hm & Hlt & Hprev); exists m;
             (split; [assumption |]).
           ++ assert (H0 : m0 < m).
              { apply Rmult_lt_reg_r with (r := N); [assumption |].
                destruct (Rlt_dec b (m0 * N)); lra. }
              split; [destruct (Rlt_dec b (m0 * N)); lra |].
              intros [| j] mj wj Hj Hnth; cbn [nth_error] in Hnth.
              ** injection Hnth as <- _. exact H0.
              ** apply (Hprev j mj wj); [lia | assumption].
           ++ assert (H0 : m0 < m)
                by (apply (Hprev 0%nat m0 (pygt (Fin (m0 * N)) (Fin b)));
                    [lia | reflexivity]).
              assert (H1 : m0 * N < m * N)
                by (apply Rmult_lt_compat_r; assumption).
              split; [destruct (Rlt_dec b (m0 * N)); lra |].
              intros j mj wj Hj Hnth.
              apply (Hprev (S j) mj wj); [lia | exact Hnth].
Qed.

(** The reports of the whole script are those of its epoch loop. *)
Lemma main_reports :
  epoch_reports a (trace (main W a)) = [] \/
  exists se,
    outcome (setup W a) = Ok se /\
    epoch_reports a (trace (main W a))
    = epoch_reports a
        (trace (run_epochs W a se (epoch_range a) (initial_state W se))).
Proof.
  destruct (outcome (setup W a)) as [se | e] eqn:Hs.
  - right. exists se. split; [reflexivity |].
    rewrite (main_setup_ok W a se Hs). unfold trace at 1. cbn [fst].
    apply epoch_reports_quiet_app. apply setup_quiet.
  - left. rewrite (main_setup_err W a e Hs). unfold trace at 1. cbn [fst].
    apply epoch_reports_quiet. apply setup_quiet.
Qed.

End RunPolicy.

Section EpochRun.

Context {batch params opt_state dataset loader : Type}.
Variable W : Collab batch params opt_state dataset loader.
Variable a : Args.

(** An epoch whose training pass and validation pass go through, followed
    by the rest of the loop. *)
Lemma run_epochs_cons_ok (se : Session params loader) (k0 : nat)
    (ks : list nat) (s : LoopState params opt_state)
    (st : TrainState params opt_state) (avg mean : pyfloat) :
  outcome (train_epoch W a (make_optimizer a) (train_dataloader se)
             (seed_used se) (train_state s) k0) = Ok st ->
  psnr_fold (map (loss_item W (device_of a) false (model st))
               (iter_loader W (val_dataloader se) (seed_used se) k0))
            (Fin 0) = Ok avg ->
  truediv avg (of_len (len_loader W (val_dataloader se))) = Ok mean ->
  let s' := {| train_state := st;
               best_psnr := if pygt avg (best_psnr s) then avg
                            else best_psnr s |} in
  outcome (run_epochs W a se (k0 :: ks) s)
  = outcome (run_epochs W a se ks s') /\
  epoch_reports a (trace (run_epochs W a se (k0 :: ks) s))
  = (mean, pygt avg (best_psnr s))
    :: epoch_reports a (trace (run_epochs W a se ks s')) /\
  saves (trace (run_epochs W a se (k0 :: ks) s))
  = (epoch_path k0, model st)
    :: (if pygt avg (best_psnr s) then [(best_path a, model st)] else [])
    ++ saves (trace (run_epochs W a se ks s')).
Proof.
  intros Ht Hfold Hdiv s'.
  pose proof (eval_epoch_ok W a (val_dataloader se) (seed_used se) (model st)
                k0 avg mean Hfold Hdiv) as Heval.
  assert (He : outcome (eval_epoch W a (val_dataloader se) (seed_used se)
                          (model st) k0) = Ok avg) by (now rewrite Heval).
  pose proof (epoch_body_ok W a (make_optimizer a) (train_dataloader se)
                (val_dataloader se) (seed_used se) s k0 st avg Ht He) as Hbody.
  destruct (train_epoch_cases W a (make_optimizer a) (train_dataloader se)
              (seed_used se) (train_state s) k0) as (Hq & Hs & _).
  destruct (eval_loop_trace W a (model st)
              (iter_loader W (val_dataloader se) (seed_used se) k0) (Fin 0))
    as (Hqe & _ & Hse & _).
  unfold run_epochs.
  rewrite for_each_ok with (s' := s') by (now rewrite Hbody).
  rewrite Hbody, Heval. unfold trace, outcome in *. cbn [fst snd].
  split; [reflexivity |]. split.
  - rewrite <- !app_assoc.
    rewrite epoch_reports_quiet_app by assumption.
    rewrite epoch_reports_quiet_app by assumption.
    cbn [app epoch_reports best_saved_next].
    rewrite epoch_path_not_best.
    pose proof (run_epochs_no_early_best W a se ks s') as Hnb.
    unfold run_epochs, trace in Hnb.
    destruct (pygt avg (best_psnr s)); cbn [app epoch_reports best_saved_next].
    + now rewrite String.eqb_refl.
    + now rewrite Hnb.
  - rewrite !saves_app, Hs, Hse. cbn [app saves flat_map].
    destruct (pygt avg (best_psnr s)); reflexivity.
Qed.

End EpochRun.


(** ** Runs in the small world: one training batch, one validation batch *)

Lemma toy_setup_ok (f : nat -> R) (n : Z) :
  outcome (setup (toy [plain_batch 1] [staged_batch f])
             (set_epochs n default_args))
  = Ok (toy_session f).
Proof. reflexivity. Qed.

Lemma psnr_value_pow (n : nat) : psnr_value (1 / 10 ^ n) = 10 * INR n.
Proof.
  unfold psnr_value.
  assert (Hp : 10 ^ n <> 0) by (apply pow_nonzero; lra).
  replace (1 / (1 / 10 ^ n)) with (10 ^ n) by (field; assumption).
  now rewrite log10_pow.
Qed.

(** One epoch of the small world, entered with best value [b]: the
    validation batch has loss [f (m + 1)] where [m] steps were applied
    before the epoch. *)
Lemma toy_epoch (f : nat -> R) (a : Args) (k0 : nat) (ks : list nat)
    (s : LoopState nat unit) (b : R) :
  let W := toy [plain_batch 1] [staged_batch f] in
  let se := toy_session f in
  let m' := S (model (train_state s)) in
  let x := psnr_value (f m') in
  let w := pygt (Fin x) (Fin b) in
  let s' := {| train_state :=
                 {| model := m'; moments := tt;
                    scaler := update_scale default_scaler_cfg
                                (scaler (train_state s)) true |};
               best_psnr := if w then Fin x else Fin b |} in
  best_psnr s = Fin b -> 0 < f m' ->
  outcome (run_epochs W a se (k0 :: ks) s) = outcome (run_epochs W a se ks s') /\
  epoch_reports a (trace (run_epochs W a se (k0 :: ks) s))
  = (Fin x, w) :: epoch_reports a (trace (run_epochs W a se ks s')) /\
  saves (trace (run_epochs W a se (k0 :: ks) s))
  = (epoch_path k0, m') :: (if w then [(best_path a, m')] else [])
    ++ saves (trace (run_epochs W a se ks s')).
Proof.
  intros W se m' x w s' Hb Hf.
  assert (Ht : outcome (train_epoch W a (make_optimizer a) (train_dataloader se)
                          (seed_used se) (train_state s) k0)
               = Ok (train_state s')).
  { rewrite (train_epoch_outcome_ok W) by discriminate.
    destruct s as [[m [] sc] bp]. reflexivity. }
  assert (Hfold : psnr_fold
                    (map (loss_item W (device_of a) false (model (train_state s')))
                       (iter_loader W (val_dataloader se) (seed_used se) k0))
                    (Fin 0) = Ok (Fin x)).
  { change (psnr_fold (map Fin [f m']) (Fin 0) = Ok (Fin x)).
    rewrite psnr_fold_pos by (repeat constructor; assumption).
    simpl. unfold x. now rewrite Rplus_0_l. }
  assert (Hdiv : truediv (Fin x) (of_len (len_loader W (val_dataloader se)))
                 = Ok (Fin x)).
  { unfold of_len. change (len_loader W (val_dataloader se)) with 1%nat.
    rewrite truediv_Fin by (simpl; lra). do 2 f_equal. simpl. field. }
  destruct (run_epochs_cons_ok W a se k0 ks s (train_state s')
              (Fin x) (Fin x) Ht Hfold Hdiv)
    as (Hout & Hrep & Hsav).
  rewrite Hb in *. fold w in Hout, Hrep, Hsav.
  repeat split; assumption.
Qed.

(** Three epochs with validation losses 1/100, 1/10 and 1/1000, that is
    metrics 20, 10 and 30: the best file is written after the first and the
    third epoch, not after the second. *)
Example three_epochs_run :
  let W := toy [plain_batch 1] [staged_batch three_stages] in
  let a := set_epochs 3 default_args in
  epoch_reports a (trace (main W a))
  = [(Fin 20, true); (Fin 10, false); (Fin 30, true)] /\
  saves (trace (main W a))
  = [("weights/model_0.pth"%string, 1%nat);
     ("weights/srcnn_X4.pth"%string, 1%nat);
     ("weights/model_1.pth"%string, 2%nat);
     ("weights/model_2.pth"%string, 3%nat);
     ("weights/srcnn_X4.pth"%string, 3%nat)].
Proof.
  intros W a.
  pose proof (toy_setup_ok three_stages 3) as Hs. fold W a in Hs.
  rewrite (main_setup_ok W a _ Hs), !trace_pair.
  rewrite (epoch_reports_quiet_app a _ _ (setup_quiet W a)).
  rewrite saves_app.
  replace (saves (trace (setup W a))) with (@nil (string * nat))
    by (now rewrite setup_trace).
  cbn [app]. change (epoch_range a) with [0%nat; 1%nat; 2%nat].
  assert (H20 : psnr_value (three_stages 1) = 20).
  { unfold three_stages. replace (1 / 100) with (1 / 10 ^ 2) by (simpl; field).
    rewrite psnr_value_pow. simpl. lra. }
  assert (H10 : psnr_value (three_stages 2) = 10).
  { unfold three_stages. replace (1 / 10) with (1 / 10 ^ 1) by (simpl; field).
    rewrite psnr_value_pow. simpl. lra. }
  assert (H30 : psnr_value (three_stages 3) = 30).
  { unfold three_stages. replace (1 / 1000) with (1 / 10 ^ 3) by (simpl; field).
    rewrite psnr_value_pow. simpl. lra. }
  destruct (toy_epoch three_stages a 0 [1%nat; 2%nat]
              (initial_state W (toy_session three_stages)) 0 eq_refl)
    as (_ & Hr0 & Hs0); [simpl; lra |].
  fold W in Hr0, Hs0. rewrite Hr0, Hs0. clear Hr0 Hs0.
  cbn [initial_state train_state model initial_model toy_session].
  rewrite H20.
  assert (Hw0 : pygt (Fin 20) (Fin 0) = true) by (apply pygt_Fin; lra).
  rewrite Hw0.
  match goal with
  | |- context [run_epochs W a _ _ ?s1] =>
      destruct (toy_epoch three_stages a 1 [2%nat] s1 20 eq_refl)
        as (_ & Hr1 & Hs1); [simpl; lra |]
  end.
  fold W in Hr1, Hs1. rewrite Hr1, Hs1. clear Hr1 Hs1.
  cbn [train_state model]. rewrite H10.
  assert (Hw1 : pygt (Fin 10) (Fin 20) = false) by (apply pygt_Fin_false; lra).
  rewrite Hw1.
  match goal with
  | |- context [run_epochs W a _ _ ?s2] =>
      destruct (toy_epoch three_stages a 2 [] s2 20 eq_refl)
        as (_ & Hr2 & Hs2); [simpl; lra |]
  end.
  fold W in Hr2, Hs2. rewrite Hr2, Hs2. clear Hr2 Hs2.
  cbn [train_state model]. rewrite H30.
  assert (Hw2 : pygt (Fin 30) (Fin 20) = true) by (apply pygt_Fin; lra).
  rewrite Hw2.
  split; reflexivity.
Qed.

(** ** The checkpoint policy over a whole run *)

Section Policy.

Context {batch params opt_state dataset loader : Type}.
Variable W : Collab batch params opt_state dataset loader.
Variable a : Args.

(** With an empty validation loader no epoch reaches its report. *)
Lemma run_epochs_reports_empty_loader (se : Session params loader)
    (ks : list nat) (s : LoopState params opt_state) :
  len_loader W (val_dataloader se) = 0%nat ->
  epoch_reports a (trace (run_epochs W a se ks s)) = [].
Proof.
  intro Hn. destruct ks as [| k0 ks]; [reflexivity |].
  unfold run_epochs.
  destruct (epoch_body_cases W a (make_optimizer a) (train_dataloader se)
              (val_dataloader se) (seed_used se) s k0)
    as [(e & He & Hq) | (pre & st & avg & mean & _ & _ & Hdiv & _)].
  - rewrite (for_each_err _ _ _ _ _ He), trace_pair.
    now apply epoch_reports_quiet.
  - rewrite Hn, truediv_len_zero in Hdiv. discriminate.
Qed.

(** The overwrite rule on the reports of the script, with the sums of the
    metrics the script compares written as mean times number of batches. *)
Lemma main_reports_policy (k : nat) (mk : pyfloat) (w : bool) :
  nth_error (epoch_reports a (trace (main W a))) k = Some (mk, w) ->
  exists N : R,
    0 < N /\
    (w = true <->
     exists m, mk = Fin m /\ 0 < m * N /\
       forall j mj wj, (j < k)%nat ->
         nth_error (epoch_reports a (trace (main W a))) j = Some (Fin mj, wj) ->
         mj < m).
Proof.
  intro Hk.
  destruct (main_reports W a) as [Hnil | (se & Hs & Hrep)].
  - rewrite Hnil in Hk. destruct k; discriminate.
  - rewrite Hrep in *.
    exists (INR (len_loader W (val_dataloader se))). split.
    + destruct (len_loader W (val_dataloader se)) as [| n] eqn:Hn.
      * rewrite (run_epochs_reports_empty_loader se _ _ Hn) in Hk.
        destruct k; discriminate.
      * apply lt_0_INR. lia.
    + apply (run_epochs_policy W a se (epoch_range a) (initial_state W se) 0
               eq_refl k mk w Hk).
Qed.

End Policy.

(** C1 (as the code has it).  The best file is overwritten after an epoch
    exactly when the mean validation metric the epoch reports is a number
    strictly greater than 0, the value the best metric starts from, and
    strictly greater than the means reported by all previous epochs. *)
Theorem best_checkpoint_policy
    {batch params opt_state dataset loader : Type}
    (W : Collab batch params opt_state dataset loader) (a : Args)
    (k : nat) (mk : pyfloat) (w : bool) :
  nth_error (epoch_reports a (trace (main W a))) k = Some (mk, w) ->
  (w = true <->
   exists m, mk = Fin m /\ 0 < m /\
     forall j mj wj, (j < k)%nat ->
       nth_error (epoch_reports a (trace (main W a))) j = Some (Fin mj, wj) ->
       mj < m).
Proof.
  intro Hk. destruct (main_reports_policy W a k mk w Hk) as (N & HN & Hiff).
  rewrite Hiff. split; intros (m & Hm & H0 & Hprev); exists m;
    (split; [assumption |]); (split; [| assumption]).
  - apply Rmult_lt_reg_r with (r := N); [assumption |]. lra.
  - apply Rmult_lt_0_compat; assumption.
Qed.

Lemma best_checkpoint_policy_witness :
  let W := toy [plain_batch 1] [staged_batch three_stages] in
  let a := set_epochs 3 default_args in
  nth_error (epoch_reports a (trace (main W a))) 2 = Some (Fin 30, true) /\
  (true = true <->
   exists m, Fin 30 = Fin m /\ 0 < m /\
     forall j mj wj, (j < 2)%nat ->
       nth_error (epoch_reports a (trace (main W a))) j = Some (Fin mj, wj) ->
       mj < m).
Proof.
  intros W a.
  assert (H : nth_error (epoch_reports a (trace (main W a))) 2
              = Some (Fin 30, true)).
  { destruct three_epochs_run as (Hr & _). fold W a in Hr. now rewrite Hr. }
  split; [exact H |].
  exact (best_checkpoint_policy W a 2 (Fin 30) true H).
Defined.

Lemma psnr_value_pow_neg (n : nat) : psnr_value (10 ^ n) = - (10 * INR n).
Proof.
  unfold psnr_value, log10.
  assert (Hp : 0 < 10 ^ n) by (apply pow_lt; lra).
  replace (1 / 10 ^ n) with (/ 10 ^ n) by (field; lra).
  rewrite ln_Rinv by assumption. rewrite ln_pow by lra.
  field. pose proof ln_10_pos. lra.
Qed.

(** One epoch in the small world with a validation loss above 1: the
    epoch reports a negative mean and writes its epoch file only. *)
Lemma toy_one_epoch_high_loss (L : R) :
  1 < L ->
  let W := toy [plain_batch 1] [staged_batch (fun _ => L)] in
  let a := set_epochs 1 default_args in
  epoch_reports a (trace (main W a)) = [(Fin (psnr_value L), false)] /\
  saves (trace (main W a)) = [("weights/model_0.pth"%string, 1%nat)].
Proof.
  intros HL W a.
  pose proof (toy_setup_ok (fun _ => L) 1) as Hs. fold W a in Hs.
  rewrite (main_setup_ok W a _ Hs), !trace_pair.
  rewrite (epoch_reports_quiet_app a _ _ (setup_quiet W a)).
  rewrite saves_app.
  replace (saves (trace (setup W a))) with (@nil (string * nat))
    by (now rewrite setup_trace).
  cbn [app]. change (epoch_range a) with [0%nat].
  assert (Hpos : 0 < L) by lra.
  destruct (toy_epoch (fun _ => L) a 0 []
              (initial_state W (toy_session (fun _ => L))) 0 eq_refl Hpos)
    as (_ & Hr0 & Hs0).
  fold W in Hr0, Hs0. rewrite Hr0, Hs0. clear Hr0 Hs0.
  assert (Hw : pygt (Fin (psnr_value L)) (Fin 0) = false).
  { apply pygt_Fin_false. pose proof (psnr_value_neg L HL). lra. }
  rewrite Hw. split; reflexivity.
Qed.

Lemma psnr_value_hundred : psnr_value 100 = -20.
Proof.
  replace 100 with (10 ^ 2) by (simpl; lra).
  rewrite psnr_value_pow_neg. simpl. lra.
Qed.

(** C1, as stated, fails: one epoch whose validation loss is 10 reports a
    mean of -10; no epoch came before it, so its mean exceeds those of all
    previous epochs, and yet the best file is not written. *)
Lemma best_checkpoint_claim_fails :
  let W := toy [plain_batch 1] [staged_batch (fun _ => 10)] in
  let a := set_epochs 1 default_args in
  epoch_reports a (trace (main W a)) = [(Fin (-10), false)] /\
  saves (trace (main W a)) = [("weights/model_0.pth"%string, 1%nat)] /\
  ~ (forall k mk w,
        nth_error (epoch_reports a (trace (main W a))) k = Some (mk, w) ->
        (w = true <->
         forall j mj wj, (j < k)%nat ->
           nth_error (epoch_reports a (trace (main W a))) j = Some (mj, wj) ->
           pygt mk mj = true)).
Proof.
  intros W a.
  destruct (toy_one_epoch_high_loss 10) as (Hr & Hs); [lra |].
  fold W a in Hr, Hs. rewrite psnr_value_ten in Hr.
  split; [exact Hr |]. split; [exact Hs |].
  intro Hclaim.
  specialize (Hclaim 0%nat (Fin (-10)) false).
  rewrite Hr in Hclaim. specialize (Hclaim eq_refl).
  destruct Hclaim as (_ & Hback).
  assert (Habs : false = true) by (apply Hback; intros j mj wj Hj; lia).
  discriminate.
Qed.

(** ** The best metric *)

(** C2 (as the code has it).  The best metric starts at 0, which is not the
    worst value of the metric; the first epoch overwrites the best file
    exactly when the mean it reports is a number strictly greater than 0;
    and saving changes the best metric only to the sum of the metrics of an
    epoch that strictly exceeds it, writing the best file exactly then. *)
Theorem best_metric_updates
    {batch params opt_state dataset loader : Type}
    (W : Collab batch params opt_state dataset loader) (a : Args) :
  (forall se, best_psnr (initial_state W se) = Fin 0) /\
  (forall mk w rest,
      epoch_reports a (trace (main W a)) = (mk, w) :: rest ->
      (w = true <-> exists m, mk = Fin m /\ 0 < m)) /\
  (forall (s : LoopState params opt_state) (st : TrainState params opt_state)
          (avg : pyfloat) (epoch : nat),
      exists s',
        outcome (save_model (batch := batch) a s st avg epoch) = Ok s' /\
        best_psnr s' = (if pygt avg (best_psnr s) then avg else best_psnr s) /\
        saves (trace (save_model (batch := batch) a s st avg epoch))
        = (epoch_path epoch, model st)
          :: (if pygt avg (best_psnr s) then [(best_path a, model st)] else [])).
Proof.
  split; [reflexivity |]. split.
  - intros mk w rest Hrep.
    assert (Hk : nth_error (epoch_reports a (trace (main W a))) 0
                 = Some (mk, w)) by (now rewrite Hrep).
    destruct (main_reports_policy W a 0 mk w Hk) as (N & HN & Hiff).
    rewrite Hiff. split.
    + intros (m & Hm & H0 & _). exists m. split; [assumption |].
      apply Rmult_lt_reg_r with (r := N); [assumption |]. lra.
    + intros (m & Hm & H0). exists m. split; [assumption |].
      split; [now apply Rmult_lt_0_compat |].
      intros j mj wj Hj. lia.
  - intros s st avg epoch. rewrite save_model_eq, trace_pair, outcome_pair.
    eexists. split; [reflexivity |]. split; [reflexivity |].
    destruct (pygt avg (best_psnr s)); reflexivity.
Qed.

Lemma best_metric_updates_witness :
  let W := toy [plain_batch 1] [staged_batch three_stages] in
  let a := set_epochs 3 default_args in
  epoch_reports a (trace (main W a))
  = (Fin 20, true) :: [(Fin 10, false); (Fin 30, true)] /\
  (true = true <-> exists m, Fin 20 = Fin m /\ 0 < m).
Proof.
  intros W a.
  assert (H : epoch_reports a (trace (main W a))
              = (Fin 20, true) :: [(Fin 10, false); (Fin 30, true)]).
  { destruct three_epochs_run as (Hr & _). exact Hr. }
  split; [exact H |].
  destruct (best_metric_updates W a) as (_ & Hfirst & _).
  exact (Hfirst (Fin 20) true [(Fin 10, false); (Fin 30, true)] H).
Defined.

(** C2, as stated, fails: the metric of a first epoch whose validation loss
    is 100 is -20, which does not exceed the initial best metric 0; the
    epoch writes its epoch file and no best file. *)
Lemma best_metric_claim_fails :
  let W := toy [plain_batch 1] [staged_batch (fun _ => 100)] in
  let a := set_epochs 1 default_args in
  best_psnr (initial_state W (toy_session (fun _ => 100))) = Fin 0 /\
  pygt (Fin (-20)) (Fin 0) = false /\
  epoch_reports a (trace (main W a)) = [(Fin (-20), false)] /\
  saves (trace (main W a)) = [("weights/model_0.pth"%string, 1%nat)].
Proof.
  intros W a.
  destruct (toy_one_epoch_high_loss 100) as (Hr & Hs); [lra |].
  fold W a in Hr, Hs. rewrite psnr_value_hundred in Hr.
  split; [reflexivity |].
  split; [apply pygt_Fin_false; lra |].
  split; assumption.
Qed.

(** ** The options *)

Lemma bind_assoc {E A B C : Type} (m : M E A) (f : A -> M E B)
    (g : B -> M E C) :
  bind (bind m f) g = bind m (fun x => bind (f x) g).
Proof.
  unfold bind. destruct m as [t [x | e]]; cbn [fst snd]; [| reflexivity].
  destruct (f x) as [t' [y | e]]; cbn [fst snd]; [| reflexivity].
  now rewrite app_assoc.
Qed.

Section OptionFacts.

Context {batch params opt_state dataset loader : Type}.
Variable W : Collab batch params opt_state dataset loader.

(** The script begins by echoing its options. *)
Lemma main_head (a : Args) :
  main W a = (EPrint (LNamespace a) :: tl (trace (main W a)), outcome (main W a)).
Proof.
  unfold main, setup. rewrite bind_assoc, bind_emit. reflexivity.
Qed.

(** What follows the echo does not depend on [--print-freq]. *)
Lemma main_tail_print_freq (a : Args) (p : Z) :
  tl (trace (main W (set_print_freq p a))) = tl (trace (main W a)) /\
  outcome (main W (set_print_freq p a)) = outcome (main W a).
Proof.
  unfold main, setup. rewrite !bind_assoc, !bind_emit.
  split; reflexivity.
Qed.

(** With no epoch to run, the epoch loop does nothing. *)
Lemma epoch_range_nonpositive (a : Args) : (epochs a <= 0)%Z -> epoch_range a = [].
Proof.
  intro H. unfold epoch_range.
  replace (Z.to_nat (epochs a)) with 0%nat by lia. reflexivity.
Qed.

(** The set-up asks the collaborators and checks nothing itself. *)
Lemma setup_outcome_ok (a : Args) (d1 d2 : dataset) (l1 l2 : loader) :
  DatasetFromFolder W (dataroot a ++ "/train")%string (scale_factor a) = Ok d1 ->
  DatasetFromFolder W (dataroot a ++ "/val")%string (scale_factor a) = Ok d2 ->
  DataLoader W d1 (batch_size a) true (workers a) = Ok l1 ->
  DataLoader W d2 (batch_size a) false (workers a) = Ok l2 ->
  weights a = ""%string ->
  outcome (setup W a)
  = Ok {| train_dataloader := l1; val_dataloader := l2;
          seed_used := effective_seed W a;
          initial_model := SRCNN_init W (effective_seed W a) (device_of a) |}.
Proof.
  intros H1 H2 H3 H4 H5. unfold setup.
  rewrite !bind_emit, !outcome_pair.
  assert (Hw : outcome (if cuda_is_available W && negb (cuda a)
                        then emit (E := event batch params) (EPrint LCudaWarning)
                        else ret tt) = Ok tt)
    by (destruct (cuda_is_available W && negb (cuda a)); reflexivity).
  rewrite (bind_ok _ _ _ Hw), outcome_pair.
  rewrite H1, bind_lift_ok, H2, bind_lift_ok, H3, bind_lift_ok, H4, bind_lift_ok.
  rewrite H5. cbn [String.eqb]. rewrite bind_ret. reflexivity.
Qed.

End OptionFacts.

(** C8 (as the code has it).  The script checks none of its options.  An
    exception of a collaborator during set-up ends the run before any
    training work; when the collaborators accept what they are given, the
    set-up goes through whatever the epoch count, the batch size and the
    scale factor are; and with a non-positive epoch count the script does
    no training work and ends normally. *)
Theorem configuration_not_validated
    {batch params opt_state dataset loader : Type}
    (W : Collab batch params opt_state dataset loader) (a : Args) :
  (forall e, outcome (setup W a) = Err e ->
             outcome (main W a) = Err e /\
             filter is_work (trace (main W a)) = []) /\
  (forall d1 d2 l1 l2,
      DatasetFromFolder W (dataroot a ++ "/train")%string (scale_factor a) = Ok d1 ->
      DatasetFromFolder W (dataroot a ++ "/val")%string (scale_factor a) = Ok d2 ->
      DataLoader W d1 (batch_size a) true (workers a) = Ok l1 ->
      DataLoader W d2 (batch_size a) false (workers a) = Ok l2 ->
      weights a = ""%string ->
      exists se, outcome (setup W a) = Ok se) /\
  ((epochs a <= 0)%Z ->
   filter is_work (trace (main W a)) = [] /\
   forall se, outcome (setup W a) = Ok se ->
              outcome (main W a) = Ok (initial_state W se)).
Proof.
  split; [| split].
  - intros e He. rewrite (main_setup_err W a e He), outcome_pair, trace_pair.
    split; [reflexivity | apply setup_no_work].
  - intros d1 d2 l1 l2 H1 H2 H3 H4 H5. eexists.
    exact (setup_outcome_ok W a d1 d2 l1 l2 H1 H2 H3 H4 H5).
  - intro Hep. split.
    + destruct (outcome (setup W a)) as [se | e] eqn:Hs.
      * rewrite (main_setup_ok W a se Hs), trace_pair.
        rewrite (epoch_range_nonpositive a Hep). unfold run_epochs.
        cbn [for_each ret trace fst]. rewrite app_nil_r. apply setup_no_work.
      * rewrite (main_setup_err W a e Hs), trace_pair. apply setup_no_work.
    + intros se Hs. rewrite (main_setup_ok W a se Hs), outcome_pair.
      rewrite (epoch_range_nonpositive a Hep). reflexivity.
Qed.

Lemma configuration_not_validated_witness :
  let W := toy [plain_batch 1] [staged_batch three_stages] in
  let a := set_epochs (-1) default_args in
  (epochs a <= 0)%Z /\
  outcome (setup W a) = Ok (toy_session three_stages) /\
  filter is_work (trace (main W a)) = [] /\
  outcome (main W a) = Ok (initial_state W (toy_session three_stages)).
Proof.
  intros W a.
  assert (Hep : (epochs a <= 0)%Z) by (simpl; lia).
  assert (Hs : outcome (setup W a) = Ok (toy_session three_stages))
    by apply toy_setup_ok.
  destruct (configuration_not_validated W a) as (_ & _ & Hz).
  destruct (Hz Hep) as (Hw & Hok).
  split; [exact Hep |]. split; [exact Hs |]. split; [exact Hw |].
  exact (Hok _ Hs).
Defined.

(** C8, as stated, fails: with [--epochs 0], a non-positive epoch count,
    the script is not rejected; it prints its options and its seed and ends
    normally. *)
Lemma zero_epochs_accepted :
  let W := toy [plain_batch 1] [staged_batch three_stages] in
  let a := set_epochs 0 default_args in
  (epochs a <= 0)%Z /\
  outcome (main W a) = Ok (initial_state W (toy_session three_stages)) /\
  trace (main W a)
  = [EPrint (LNamespace a); EMakedirs "weights"; EPrint (LRandomSeed 42)] /\
  ~ (exists e, outcome (main W a) = Err e).
Proof.
  intros W a.
  assert (Hout : outcome (main W a)
                 = Ok (initial_state W (toy_session three_stages)))
    by reflexivity.
  split; [simpl; lia |]. split; [exact Hout |]. split; [reflexivity |].
  intros (e & He). rewrite Hout in He. discriminate.
Qed.

(** C10 (as the code has it).  The value of [--print-freq] is echoed once,
    in the line that prints the options, and is read nowhere else: two runs
    that differ in it alone have the same outcome and the same events but
    for that first line, hence the same per-epoch reports, the same steps,
    the same fetches and the same checkpoint files. *)
Theorem print_freq_only_echoed
    {batch params opt_state dataset loader : Type}
    (W : Collab batch params opt_state dataset loader) (a : Args) (p : Z) :
  exists rest,
    trace (main W a) = EPrint (LNamespace a) :: rest /\
    trace (main W (set_print_freq p a))
    = EPrint (LNamespace (set_print_freq p a)) :: rest /\
    outcome (main W (set_print_freq p a)) = outcome (main W a) /\
    tl (console (trace (main W (set_print_freq p a))))
    = tl (console (trace (main W a))) /\
    steps (trace (main W (set_print_freq p a))) = steps (trace (main W a)) /\
    fetches (trace (main W (set_print_freq p a))) = fetches (trace (main W a)) /\
    saves (trace (main W (set_print_freq p a))) = saves (trace (main W a)).
Proof.
  destruct (main_tail_print_freq W a p) as (Ht & Ho).
  exists (tl (trace (main W a))).
  assert (H1 : trace (main W a) = EPrint (LNamespace a) :: tl (trace (main W a))).
  { rewrite (main_head W a) at 1. apply trace_pair. }
  assert (H2 : trace (main W (set_print_freq p a))
               = EPrint (LNamespace (set_print_freq p a)) :: tl (trace (main W a))).
  { rewrite (main_head W (set_print_freq p a)) at 1. rewrite trace_pair.
    now rewrite Ht. }
  split; [exact H1 |]. split; [exact H2 |]. split; [exact Ho |].
  rewrite H2. clear H2 Ht Ho. revert H1.
  generalize (tl (trace (main W a))) as rest.
  generalize (trace (main W a)) as t.
  intros t rest ->. repeat split.
Qed.

(** C10, as stated, fails: two runs that differ in [--print-freq] alone
    print different consoles, because the first line echoes the options. *)
Lemma print_freq_changes_console :
  let W := toy [plain_batch 1] [staged_batch three_stages] in
  let a := set_epochs 1 default_args in
  hd_error (console (trace (main W a))) = Some (LNamespace a) /\
  hd_error (console (trace (main W (set_print_freq 10 a))))
  = Some (LNamespace (set_print_freq 10 a)) /\
  console (trace (main W (set_print_freq 10 a))) <> console (trace (main W a)).
Proof.
  intros W a.
  assert (H1 : hd_error (console (trace (main W a))) = Some (LNamespace a)).
  { rewrite (main_head W a), trace_pair. reflexivity. }
  assert (H2 : hd_error (console (trace (main W (set_print_freq 10 a))))
               = Some (LNamespace (set_print_freq 10 a))).
  { rewrite (main_head W (set_print_freq 10 a)), trace_pair. reflexivity. }
  split; [exact H1 |]. split; [exact H2 |].
  intro Heq. rewrite Heq, H1 in H2. injection H2 as H. discriminate H.
Qed.

(** * Further properties of the script *)

(** ** Checkpoint file names *)

Lemma string_length_append (s t : string) :
  String.length (s ++ t)%string = (String.length s + String.length t)%nat.
Proof. induction s as [| c s IH]; simpl; [reflexivity | now rewrite IH]. Qed.

Lemma append_cancel_r (s s' t : string) :
  (s ++ t)%string = (s' ++ t)%string -> s = s'.
Proof.
  revert s'. induction s as [| c s IH]; intros [| c' s'] H; simpl in H.
  - reflexivity.
  - exfalso. apply (f_equal String.length) in H. simpl in H.
    rewrite string_length_append in H. lia.
  - exfalso. apply (f_equal String.length) in H. simpl in H.
    rewrite string_length_append in H. lia.
  - injection H as -> H. f_equal. now apply IH.
Qed.

Lemma to_int_not_nil (n : Z) :
  Z.to_int n <> Decimal.Pos Decimal.Nil /\ Z.to_int n <> Decimal.Neg Decimal.Nil.
Proof.
  destruct n as [| q | q]; simpl; split; try discriminate;
    intro H; injection H as H;
    now apply (DecimalPos.Unsigned.to_uint_nonnil q).
Qed.

Lemma str_of_Z_inj (n n' : Z) : str_of_Z n = str_of_Z n' -> n = n'.
Proof.
  unfold str_of_Z. intro H.
  apply DecimalZ.to_int_inj.
  destruct (to_int_not_nil n) as (H1 & H2).
  destruct (to_int_not_nil n') as (H1' & H2').
  pose proof (NilZero.isi _ H1 H2) as Hn.
  pose proof (NilZero.isi _ H1' H2') as Hn'.
  rewrite H in Hn. rewrite Hn in Hn'. now injection Hn'.
Qed.

(** X1.  Two epochs never share a per-epoch checkpoint file, and no
    per-epoch file is the best file: a run overwrites none of its per-epoch
    checkpoints. *)
Theorem epoch_files_distinct (a : Args) (k k' : nat) :
  (epoch_path k = epoch_path k' <-> k = k') /\
  epoch_path k <> best_path a.
Proof.
  split; [split |].
  - unfold epoch_path. intro H. cbn [String.append] in H.
    repeat (injection H as H).
    apply append_cancel_r, str_of_Z_inj in H. lia.
  - now intros ->.
  - intro H. pose proof (epoch_path_not_best a k) as Hne.
    rewrite H, String.eqb_refl in Hne. discriminate.
Qed.

(** X2.  The best file is named by the scale factor alone: runs with
    different scale factors keep different best files, runs with the same
    scale factor share one. *)
Theorem best_file_by_scale_factor (a a' : Args) :
  best_path a = best_path a' <-> scale_factor a = scale_factor a'.
Proof.
  split.
  - unfold best_path. intro H. cbn [String.append] in H.
    repeat (injection H as H).
    now apply append_cancel_r, str_of_Z_inj in H.
  - unfold best_path. now intros ->.
Qed.

(** ** What a loss does to the metric *)

(** X3.  The metric of a validation batch, by the value of its loss: a zero
    loss raises [ZeroDivisionError]; a negative or an infinite loss raises
    [ValueError] (the logarithm of a number that is not positive); a NaN
    loss gives NaN without raising; and a value is returned only for a NaN
    loss or for a positive loss [x], for which it is [10 * log10(1 / x)]. *)
Theorem psnr_of_loss_table (l : pyfloat) :
  (psnr_of_loss l = Err ZeroDivisionError <-> l = Fin 0) /\
  (psnr_of_loss l = Err ValueError <->
   (exists x, l = Fin x /\ x < 0) \/ l = PInf \/ l = NInf) /\
  (psnr_of_loss l = Ok NaN <-> l = NaN) /\
  (forall p, psnr_of_loss l = Ok p ->
             l = NaN \/ exists x, l = Fin x /\ 0 < x /\ p = Fin (10 * log10 (1 / x))).
Proof.
  destruct l as [x | | |].
  - destruct (Rtotal_order x 0) as [Hneg | [-> | Hpos]].
    + rewrite (psnr_of_loss_neg x Hneg).
      split; [split; [discriminate | intro H; injection H as H; lra] |].
      split; [split; [intros _; left; now exists x | reflexivity] |].
      split; [split; discriminate | discriminate].
    + rewrite psnr_of_loss_zero.
      split; [split; reflexivity |].
      split; [split; [discriminate |] |].
      * intros [(x & H & Hx) | [H | H]]; try discriminate.
        injection H as <-. lra.
      * split; [split; discriminate | discriminate].
    + rewrite (psnr_of_loss_pos x Hpos).
      split; [split; [discriminate | intro H; injection H as H; lra] |].
      split; [split; [discriminate |] |].
      * intros [(y & H & Hy) | [H | H]]; try discriminate.
        injection H as <-. lra.
      * split; [split; discriminate |].
        intros p H. injection H as <-. right. exists x. repeat split; assumption.
  - assert (H : psnr_of_loss PInf = Err ValueError).
    { unfold psnr_of_loss, truediv, math_log10.
      destruct (Rlt_dec 0 0); [lra | reflexivity]. }
    rewrite H.
    split; [split; discriminate |].
    split; [split; [intros _; right; now left | reflexivity] |].
    split; [split; discriminate | discriminate].
  - assert (H : psnr_of_loss NInf = Err ValueError).
    { unfold psnr_of_loss, truediv, math_log10.
      destruct (Rlt_dec 0 0); [lra | reflexivity]. }
    rewrite H.
    split; [split; discriminate |].
    split; [split; [intros _; right; now right | reflexivity] |].
    split; [split; discriminate | discriminate].
  - change (psnr_of_loss NaN) with (@Ok pyfloat NaN).
    split; [split; discriminate |].
    split; [split; [discriminate |] |].
    + intros [(x & H & _) | [H | H]]; discriminate.
    + split; [split; reflexivity |]. intros p _. now left.
Qed.

Lemma fold_fadd_NaN (ls : list pyfloat) : fold_left fadd ls NaN = NaN.
Proof. induction ls as [| l ls IH]; simpl; [reflexivity | exact IH]. Qed.

Lemma fold_fadd_has_NaN (ls : list pyfloat) (acc : pyfloat) :
  In NaN ls -> fold_left fadd ls acc = NaN.
Proof.
  revert acc. induction ls as [| l ls IH]; intros acc Hin; [destruct Hin |].
  simpl. destruct Hin as [-> | Hin].
  - replace (fadd acc NaN) with NaN by (now destruct acc).
    apply fold_fadd_NaN.
  - now apply IH.
Qed.

(** X4.  A NaN training loss is not fatal: the training pass of the epoch
    goes through and the mean loss it prints is NaN. *)
Theorem nan_training_loss
    {batch params opt_state dataset loader : Type}
    (W : Collab batch params opt_state dataset loader) (a : Args)
    (oc : OptimizerConfig) (dl : loader) (seed : Z)
    (st : TrainState params opt_state) (epoch : nat) :
  In NaN (iteration_losses W a oc st (iter_loader W dl seed epoch)) ->
  outcome (train_epoch W a oc dl seed st epoch)
  = Ok (fold_left (iteration_result W a oc) (iter_loader W dl seed epoch) st) /\
  console (trace (train_epoch W a oc dl seed st epoch))
  = [LTrainingLoss epoch NaN].
Proof.
  intro Hin.
  assert (Hn : len_loader W dl <> 0%nat).
  { rewrite <- (iter_loader_length W dl seed epoch),
      <- (iteration_losses_length W a oc _ st).
    destruct (iteration_losses W a oc st (iter_loader W dl seed epoch));
      [destruct Hin | discriminate]. }
  assert (Hdiv : truediv (fsum (iteration_losses W a oc st
                                  (iter_loader W dl seed epoch)))
                   (of_len (len_loader W dl)) = Ok NaN).
  { unfold fsum. rewrite (fold_fadd_has_NaN _ _ Hin).
    unfold truediv, of_len.
    destruct (Req_EM_T (INR (len_loader W dl)) 0) as [H0 | _]; [| reflexivity].
    exfalso. apply Hn. now apply INR_eq. }
  rewrite (train_epoch_ok W a oc dl seed st epoch NaN Hdiv).
  rewrite outcome_pair, trace_pair, console_app.
  destruct (train_loop_trace W a oc (iter_loader W dl seed epoch) st (Fin 0))
    as (_ & Hc & _).
  rewrite Hc. split; reflexivity.
Qed.

Lemma nan_training_loss_witness :
  let W := toy [plain_batch 1; (fun _ => NaN, [NaN])] [] in
  let dl := [plain_batch 1; (fun _ => NaN, [NaN])] in
  let st := {| model := 0%nat; moments := tt;
               scaler := new_scaler default_scaler_cfg |} in
  In NaN (iteration_losses W default_args (make_optimizer default_args) st
            (iter_loader W dl 1%Z 0%nat)) /\
  console (trace (train_epoch W default_args (make_optimizer default_args)
                    dl 1%Z st 0%nat))
  = [LTrainingLoss 0 NaN].
Proof.
  intros W dl st.
  assert (Hin : In NaN (iteration_losses W default_args
                          (make_optimizer default_args) st
                          (iter_loader W dl 1%Z 0%nat)))
    by (right; left; reflexivity).
  split; [exact Hin |].
  exact (proj2 (nan_training_loss W default_args (make_optimizer default_args)
                  dl 1%Z st 0%nat Hin)).
Defined.

(** ** Empty loaders *)

Lemma fetches_app {batch params : Type} (t1 t2 : list (event batch params)) :
  fetches (t1 ++ t2) = fetches t1 ++ fetches t2.
Proof. unfold fetches. apply flat_map_app. Qed.

Lemma epoch_range_positive (a : Args) :
  (0 < epochs a)%Z -> exists ks, epoch_range a = 0%nat :: ks.
Proof.
  intro H. unfold epoch_range.
  destruct (Z.to_nat (epochs a)) as [| n] eqn:Hn; [lia |].
  exists (seq 1 n). reflexivity.
Qed.

Section LoopEvents.

Context {batch params opt_state dataset loader : Type}.
Variable W : Collab batch params opt_state dataset loader.
Variable a : Args.
Variable oc : OptimizerConfig.

(** The training loop fetches the batches of the loader in order, each
    once, and calls [scaler.step] once per batch. *)
Lemma train_loop_events (bs : list batch) (st : TrainState params opt_state)
    (epoch_loss : pyfloat) :
  fetches (trace (for_each (train_iteration W a oc) bs (st, epoch_loss)))
  = map (pair true) bs /\
  List.length (steps (trace (for_each (train_iteration W a oc) bs (st, epoch_loss))))
  = List.length bs.
Proof.
  revert st epoch_loss. induction bs as [| b bs IH]; intros st el.
  - split; reflexivity.
  - rewrite for_each_ok
      with (s' := (iteration_result W a oc st b,
                   fadd el (loss_item W (device_of a) true (model st) b)))
      by (now rewrite train_iteration_eq).
    rewrite train_iteration_eq, !trace_pair, fetches_app, steps_app.
    destruct (IH (iteration_result W a oc st b)
                (fadd el (loss_item W (device_of a) true (model st) b)))
      as (Hf & Hs).
    rewrite Hf, length_app, Hs. split; reflexivity.
Qed.

(** A validation loop that goes through fetches the batches of the loader
    in order, each once. *)
Lemma eval_loop_fetches (m : params) (vs : list batch) (avg r : pyfloat) :
  outcome (for_each (eval_iteration W a m) vs avg) = Ok r ->
  fetches (trace (for_each (eval_iteration W a m) vs avg))
  = map (pair false) vs.
Proof.
  revert avg. induction vs as [| b vs IH]; intros avg Hok; [reflexivity |].
  destruct (psnr_of_loss (loss_item W (device_of a) false m b)) as [p | e] eqn:Hp.
  - assert (Hstep : outcome (eval_iteration W a m avg b) = Ok (fadd avg p))
      by (rewrite eval_iteration_eq, Hp; reflexivity).
    rewrite (for_each_ok _ _ _ _ _ Hstep) in *.
    rewrite outcome_pair in Hok.
    rewrite trace_pair, fetches_app, (IH _ Hok), eval_iteration_eq, trace_pair.
    reflexivity.
  - assert (Hstep : outcome (eval_iteration W a m avg b) = Err e)
      by (rewrite eval_iteration_eq, Hp; reflexivity).
    rewrite (for_each_err _ _ _ _ _ Hstep), outcome_pair in Hok. discriminate.
Qed.

End LoopEvents.

Lemma len_zero_iter_nil
    {batch params opt_state dataset loader : Type}
    (W : Collab batch params opt_state dataset loader) (dl : loader)
    (seed : Z) (epoch : nat) :
  len_loader W dl = 0%nat -> iter_loader W dl seed epoch = [].
Proof.
  intro H. apply length_zero_iff_nil.
  now rewrite iter_loader_length.
Qed.

(** X5.  With an empty training loader and at least one epoch to run, the
    script ends in [ZeroDivisionError] at the first report of the training
    loss: after the set-up it fetches nothing, prints nothing and writes
    nothing. *)
Theorem empty_training_loader
    {batch params opt_state dataset loader : Type}
    (W : Collab batch params opt_state dataset loader) (a : Args)
    (se : Session params loader) :
  outcome (setup W a) = Ok se ->
  len_loader W (train_dataloader se) = 0%nat ->
  (0 < epochs a)%Z ->
  main W a = (trace (setup W a), Err ZeroDivisionError).
Proof.
  intros Hs Hlen Hep.
  destruct (epoch_range_positive a Hep) as (ks & Hks).
  rewrite (main_setup_ok W a se Hs), Hks.
  assert (Hdiv : truediv
                   (fsum (iteration_losses W a (make_optimizer a)
                            (train_state (initial_state W se))
                            (iter_loader W (train_dataloader se) (seed_used se) 0)))
                   (of_len (len_loader W (train_dataloader se)))
                 = Err ZeroDivisionError)
    by (rewrite Hlen; apply truediv_len_zero).
  pose proof (train_epoch_err W a (make_optimizer a) (train_dataloader se)
                (seed_used se) (train_state (initial_state W se)) 0
                ZeroDivisionError Hdiv) as Ht.
  rewrite (len_zero_iter_nil W _ (seed_used se) 0%nat Hlen) in Ht.
  cbn [for_each ret trace fst] in Ht.
  assert (Hb : epoch_body W a (make_optimizer a) (train_dataloader se)
                 (val_dataloader se) (seed_used se) (initial_state W se) 0
               = ([], Err ZeroDivisionError)).
  { rewrite (epoch_body_train_err W a (make_optimizer a) (train_dataloader se)
               (val_dataloader se) (seed_used se) (initial_state W se) 0
               ZeroDivisionError) by (now rewrite Ht).
    now rewrite Ht. }
  unfold run_epochs.
  rewrite (for_each_err _ 0%nat ks (initial_state W se) ZeroDivisionError)
    by (now rewrite Hb).
  rewrite Hb, !trace_pair, outcome_pair, app_nil_r. reflexivity.
Qed.

Lemma empty_training_loader_witness :
  let W := toy [] [plain_batch 1] in
  let a := set_epochs 2 default_args in
  let se := {| train_dataloader := []; val_dataloader := [plain_batch 1];
               seed_used := 42%Z; initial_model := 0%nat |} in
  outcome (setup W a) = Ok se /\
  len_loader W (train_dataloader se) = 0%nat /\
  (0 < epochs a)%Z /\
  main W a = (trace (setup W a), Err ZeroDivisionError).
Proof.
  intros W a se.
  assert (Hs : outcome (setup W a) = Ok se) by reflexivity.
  assert (Hep : (0 < epochs a)%Z) by (simpl; lia).
  split; [exact Hs |]. split; [reflexivity |]. split; [exact Hep |].
  exact (empty_training_loader W a se Hs eq_refl Hep).
Defined.

(** X6.  With training batches but an empty validation loader, the first
    epoch trains on every batch, prints its training loss and then ends the
    script in [ZeroDivisionError] at the report of the metric: no
    checkpoint is ever written. *)
Theorem empty_validation_loader
    {batch params opt_state dataset loader : Type}
    (W : Collab batch params opt_state dataset loader) (a : Args)
    (se : Session params loader) :
  outcome (setup W a) = Ok se ->
  len_loader W (train_dataloader se) <> 0%nat ->
  len_loader W (val_dataloader se) = 0%nat ->
  (0 < epochs a)%Z ->
  outcome (main W a) = Err ZeroDivisionError /\
  saves (trace (main W a)) = [] /\
  fetches (trace (main W a))
  = map (pair true) (iter_loader W (train_dataloader se) (seed_used se) 0) /\
  exists mean,
    console (trace (main W a))
    = console (trace (setup W a)) ++ [LTrainingLoss 0 mean].
Proof.
  intros Hs Htr Hval Hep.
  destruct (epoch_range_positive a Hep) as (ks & Hks).
  set (s0 := initial_state W se).
  set (bs := iter_loader W (train_dataloader se) (seed_used se) 0).
  destruct (truediv_len_ok
              (fsum (iteration_losses W a (make_optimizer a) (train_state s0) bs))
              _ Htr) as (mean & Hmean).
  pose proof (train_epoch_ok W a (make_optimizer a) (train_dataloader se)
                (seed_used se) (train_state s0) 0 mean Hmean) as Ht.
  fold bs in Ht.
  set (st := fold_left (iteration_result W a (make_optimizer a)) bs
               (train_state s0)) in *.
  assert (Hv : eval_epoch W a (val_dataloader se) (seed_used se) (model st) 0
               = ([], Err ZeroDivisionError)).
  { rewrite (eval_epoch_div_err W a (val_dataloader se) (seed_used se)
               (model st) 0 (Fin 0) ZeroDivisionError).
    - now rewrite (len_zero_iter_nil W _ (seed_used se) 0%nat Hval).
    - now rewrite (len_zero_iter_nil W _ (seed_used se) 0%nat Hval).
    - rewrite Hval. apply truediv_len_zero. }
  assert (Hb : epoch_body W a (make_optimizer a) (train_dataloader se)
                 (val_dataloader se) (seed_used se) s0 0
               = (trace (for_each (train_iteration W a (make_optimizer a)) bs
                           (train_state s0, Fin 0))
                  ++ [EPrint (LTrainingLoss 0 mean)],
                  Err ZeroDivisionError)).
  { rewrite (epoch_body_eval_err W a (make_optimizer a) (train_dataloader se)
               (val_dataloader se) (seed_used se) s0 0 st ZeroDivisionError)
      by (now rewrite ?Ht, ?Hv).
    now rewrite Ht, Hv, !trace_pair, app_nil_r. }
  assert (Hrun : run_epochs W a se (0%nat :: ks) s0
                 = (trace (for_each (train_iteration W a (make_optimizer a)) bs
                             (train_state s0, Fin 0))
                    ++ [EPrint (LTrainingLoss 0 mean)],
                    Err ZeroDivisionError)).
  { unfold run_epochs.
    rewrite (for_each_err _ 0%nat ks s0 ZeroDivisionError) by (now rewrite Hb).
    now rewrite Hb, trace_pair. }
  rewrite (main_setup_ok W a se Hs), Hks. fold s0. rewrite Hrun.
  rewrite outcome_pair, !trace_pair.
  destruct (train_loop_trace W a (make_optimizer a) bs (train_state s0) (Fin 0))
    as (_ & Hc & Hsv).
  destruct (train_loop_events W a (make_optimizer a) bs (train_state s0) (Fin 0))
    as (Hf & _).
  split; [reflexivity |].
  rewrite !saves_app, !fetches_app, !console_app, Hc, Hsv, Hf.
  assert (Hss : saves (trace (setup W a)) = [] /\ fetches (trace (setup W a)) = []).
  { rewrite setup_trace.
    destruct (cuda_is_available W && negb (cuda a)); split; reflexivity. }
  destruct Hss as (-> & ->).
  split; [reflexivity |]. split; [now rewrite app_nil_r |].
  exists mean. reflexivity.
Qed.

Lemma empty_validation_loader_witness :
  let W := toy [plain_batch 1] [] in
  let a := set_epochs 2 default_args in
  let se := {| train_dataloader := [plain_batch 1]; val_dataloader := [];
               seed_used := 42%Z; initial_model := 0%nat |} in
  outcome (setup W a) = Ok se /\
  len_loader W (train_dataloader se) <> 0%nat /\
  len_loader W (val_dataloader se) = 0%nat /\
  (0 < epochs a)%Z /\
  outcome (main W a) = Err ZeroDivisionError /\
  saves (trace (main W a)) = [].
Proof.
  intros W a se.
  assert (Hs : outcome (setup W a) = Ok se) by reflexivity.
  assert (Htr : len_loader W (train_dataloader se) <> 0%nat) by discriminate.
  assert (Hep : (0 < epochs a)%Z) by (simpl; lia).
  split; [exact Hs |]. split; [exact Htr |]. split; [reflexivity |].
  split; [exact Hep |].
  destruct (empty_validation_loader W a se Hs Htr eq_refl Hep)
    as (Ho & Hsv & _).
  split; assumption.
Defined.

(** ** A NaN validation loss *)

Lemma psnr_fold_all_nan (ls : list pyfloat) :
  Forall (fun l => l = NaN \/ exists x, l = Fin x /\ 0 < x) ls ->
  psnr_fold ls NaN = Ok NaN.
Proof.
  induction 1 as [| l ls Hl _ IH]; [reflexivity |].
  simpl. destruct Hl as [-> | (x & -> & Hx)].
  - exact IH.
  - rewrite psnr_of_loss_pos by assumption. exact IH.
Qed.

Lemma psnr_fold_has_nan (ls : list pyfloat) (avg : pyfloat) :
  Forall (fun l => l = NaN \/ exists x, l = Fin x /\ 0 < x) ls ->
  In NaN ls ->
  psnr_fold ls avg = Ok NaN.
Proof.
  intro H. revert avg. induction H as [| l ls Hl Hls IH]; intros avg Hin.
  - destruct Hin.
  - simpl. destruct Hl as [-> | (x & -> & Hx)].
    + change (psnr_of_loss NaN) with (@Ok pyfloat NaN). cbn iota.
      replace (fadd avg NaN) with NaN by (now destruct avg).
      now apply psnr_fold_all_nan.
    + rewrite psnr_of_loss_pos by assumption. apply IH.
      destruct Hin as [Heq | Hin]; [discriminate | assumption].
Qed.

(** X7.  A NaN validation loss is not fatal either: when the other losses
    of the epoch are positive numbers, the epoch reports NaN, writes its
    epoch file but not the best file, keeps the best metric it had, and the
    loop goes on with the next epoch. *)
Theorem nan_validation_loss
    {batch params opt_state dataset loader : Type}
    (W : Collab batch params opt_state dataset loader) (a : Args)
    (se : Session params loader) (k0 : nat) (ks : list nat)
    (s : LoopState params opt_state) (st : TrainState params opt_state) :
  let losses := map (loss_item W (device_of a) false (model st))
                  (iter_loader W (val_dataloader se) (seed_used se) k0) in
  let s' := {| train_state := st; best_psnr := best_psnr s |} in
  outcome (train_epoch W a (make_optimizer a) (train_dataloader se)
             (seed_used se) (train_state s) k0) = Ok st ->
  Forall (fun l => l = NaN \/ exists x, l = Fin x /\ 0 < x) losses ->
  In NaN losses ->
  outcome (run_epochs W a se (k0 :: ks) s) = outcome (run_epochs W a se ks s') /\
  epoch_reports a (trace (run_epochs W a se (k0 :: ks) s))
  = (NaN, false) :: epoch_reports a (trace (run_epochs W a se ks s')) /\
  saves (trace (run_epochs W a se (k0 :: ks) s))
  = (epoch_path k0, model st) :: saves (trace (run_epochs W a se ks s')).
Proof.
  intros losses s' Ht Hgood Hin.
  assert (Hfold : psnr_fold losses (Fin 0) = Ok NaN)
    by (now apply psnr_fold_has_nan).
  assert (Hn : len_loader W (val_dataloader se) <> 0%nat).
  { rewrite <- (iter_loader_length W _ (seed_used se) k0).
    rewrite <- (length_map (loss_item W (device_of a) false (model st))).
    fold losses. destruct losses; [destruct Hin | discriminate]. }
  assert (Hdiv : truediv NaN (of_len (len_loader W (val_dataloader se))) = Ok NaN).
  { unfold truediv, of_len.
    destruct (Req_EM_T (INR (len_loader W (val_dataloader se))) 0) as [H0 | _];
      [| reflexivity].
    exfalso. apply Hn. now apply INR_eq. }
  destruct (run_epochs_cons_ok W a se k0 ks s st NaN NaN Ht Hfold Hdiv)
    as (Hout & Hrep & Hsav).
  rewrite pygt_NaN_l in *. repeat split; assumption.
Qed.

Lemma nan_validation_loss_witness :
  let W := toy [plain_batch 1] [plain_batch (1 / 100); (fun _ => NaN, [])] in
  let a := set_epochs 1 default_args in
  let se := {| train_dataloader := [plain_batch 1];
               val_dataloader := [plain_batch (1 / 100); (fun _ => NaN, [])];
               seed_used := 42%Z; initial_model := 0%nat |} in
  let st := fold_left (iteration_result W a (make_optimizer a))
              [plain_batch 1] (train_state (initial_state W se)) in
  outcome (train_epoch W a (make_optimizer a) (train_dataloader se)
             (seed_used se) (train_state (initial_state W se)) 0) = Ok st /\
  epoch_reports a (trace (run_epochs W a se [0%nat] (initial_state W se)))
  = [(NaN, false)].
Proof.
  intros W a se st.
  assert (Ht : outcome (train_epoch W a (make_optimizer a) (train_dataloader se)
                          (seed_used se) (train_state (initial_state W se)) 0)
               = Ok st).
  { apply (train_epoch_outcome_ok W). discriminate. }
  split; [exact Ht |].
  destruct (nan_validation_loss W a se 0 [] (initial_state W se) st Ht)
    as (_ & Hrep & _).
  - apply Forall_cons.
    + right. exists (1 / 100). split; [reflexivity | lra].
    + apply Forall_cons; [now left | apply Forall_nil].
  - right. left. reflexivity.
  - exact Hrep.
Defined.

(** ** The files of a run *)

Lemma saves_quiet {batch params : Type} (tr : list (event batch params)) :
  forallb is_quiet tr = true -> saves tr = [].
Proof.
  induction tr as [| e tr IH]; intro H; [reflexivity |].
  simpl in H. apply andb_true_iff in H as (He & Htr).
  destruct e as [d | l | t b | ap | p sd]; simpl; try (now apply IH).
  discriminate.
Qed.

Lemma last_nonempty {A : Type} (l : list A) (d d' : A) :
  l <> [] -> last l d = last l d'.
Proof.
  induction l as [| x l IH]; intro H; [now destruct H |].
  destruct l as [| y l]; [reflexivity |].
  cbn [last]. apply IH. discriminate.
Qed.

Section RunWrites.

Context {batch params opt_state dataset loader : Type}.
Variable W : Collab batch params opt_state dataset loader.
Variable a : Args.

(** The files of an epoch loop, epoch by epoch: one record per epoch that
    went through, in the order of the epochs, with the flag its report
    carries; when the loop ends normally every epoch has its record and the
    last record holds the parameters the loop ends with. *)
Lemma run_epochs_writes (se : Session params loader) (ks : list nat) :
  forall s : LoopState params opt_state,
  exists rs : list (nat * params * bool),
    saves (trace (run_epochs W a se ks s)) = flat_map (epoch_writes a) rs /\
    map (fun r => fst (fst r)) rs = firstn (List.length rs) ks /\
    map snd rs = map snd (epoch_reports a (trace (run_epochs W a se ks s))) /\
    (forall s', outcome (run_epochs W a se ks s) = Ok s' ->
                List.length rs = List.length ks /\
                model (train_state s')
                = last (map (fun r => snd (fst r)) rs) (model (train_state s))).
Proof.
  induction ks as [| k0 ks IH]; intro s.
  - exists []. split; [reflexivity |]. split; [reflexivity |].
    split; [reflexivity |]. intros s1 H1. injection H1 as <-.
    split; reflexivity.
  - unfold run_epochs.
    destruct (epoch_body_cases W a (make_optimizer a) (train_dataloader se)
                (val_dataloader se) (seed_used se) s k0)
      as [(e & He & Hq) | (pre & st & avg & mean & Hpre & _ & _ & Heq)].
    + exists []. rewrite (for_each_err _ _ _ _ _ He), trace_pair, outcome_pair.
      rewrite (saves_quiet _ Hq), (epoch_reports_quiet a _ Hq).
      split; [reflexivity |]. split; [reflexivity |].
      split; [reflexivity |]. discriminate.
    + set (w := pygt avg (best_psnr s)) in *.
      set (s1 := {| train_state := st;
                    best_psnr := if w then avg else best_psnr s |}) in *.
      destruct (IH s1) as (rs & Hsv & Hks & Hfl & Hok).
      exists ((k0, model st, w) :: rs).
      rewrite for_each_ok with (s' := s1) by (now rewrite Heq).
      rewrite Heq, !trace_pair, outcome_pair.
      fold (run_epochs W a se ks s1).
      split; [| split; [| split]].
      * rewrite saves_app, Hsv, saves_app, (saves_quiet _ Hpre).
        cbn [app saves flat_map epoch_writes fst snd].
        destruct w; reflexivity.
      * cbn [map List.length firstn fst]. now rewrite Hks.
      * rewrite (epoch_reports_epoch a pre _ mean k0 (model st) w Hpre
                   (run_epochs_no_early_best W a se ks s1)).
        cbn [map snd]. now rewrite Hfl.
      * intros s' Hs'. destruct (Hok s' Hs') as (Hlen & Hm).
        split; [cbn [List.length]; now rewrite Hlen |].
        rewrite Hm. cbn [map fst snd].
        destruct rs as [| r rs']; [reflexivity |].
        change (last (snd (fst r) :: map (fun r0 => snd (fst r0)) rs')
                  (model (train_state s1))
                = last (snd (fst r) :: map (fun r0 => snd (fst r0)) rs')
                    (model (train_state s))).
        apply last_nonempty. discriminate.
Qed.

End RunWrites.

(** X8.  The checkpoints a run writes are, for each epoch that went
    through and in the order of the epochs, the epoch's own file followed,
    exactly when the epoch is reported as an improvement, by the best file
    holding the same parameters; nothing else is ever written. *)
Theorem checkpoints_written
    {batch params opt_state dataset loader : Type}
    (W : Collab batch params opt_state dataset loader) (a : Args) :
  exists rs : list (nat * params * bool),
    saves (trace (main W a)) = flat_map (epoch_writes a) rs /\
    map (fun r => fst (fst r)) rs = firstn (List.length rs) (epoch_range a) /\
    map snd rs = map snd (epoch_reports a (trace (main W a))).
Proof.
  destruct (outcome (setup W a)) as [se | e] eqn:Hs.
  - destruct (run_epochs_writes W a se (epoch_range a) (initial_state W se))
      as (rs & Hsv & Hks & Hfl & _).
    exists rs.
    rewrite (main_setup_ok W a se Hs), trace_pair, saves_app.
    rewrite (saves_quiet _ (setup_quiet W a)).
    rewrite (epoch_reports_quiet_app a _ _ (setup_quiet W a)).
    repeat split; assumption.
  - exists []. rewrite (main_setup_err W a e Hs), trace_pair.
    rewrite (saves_quiet _ (setup_quiet W a)).
    rewrite (epoch_reports_quiet a _ (setup_quiet W a)).
    repeat split.
Qed.

(** X9.  A run of at least one epoch that ends normally has written the
    per-epoch file of every epoch of [range(epochs)], in order, and the
    last of them holds the parameters the run ends with. *)
Theorem completed_run_checkpoints
    {batch params opt_state dataset loader : Type}
    (W : Collab batch params opt_state dataset loader) (a : Args)
    (s : LoopState params opt_state) :
  let epoch_files :=
    filter (fun f => negb (String.eqb (fst f) (best_path a)))
      (saves (trace (main W a))) in
  outcome (main W a) = Ok s ->
  (0 < epochs a)%Z ->
  map fst epoch_files = map epoch_path (epoch_range a) /\
  forall d, last (map snd epoch_files) d = model (train_state s).
Proof.
  intros epoch_files Hok Hep.
  destruct (outcome (setup W a)) as [se | e] eqn:Hs.
  2:{ rewrite (main_setup_err W a e Hs), outcome_pair in Hok. discriminate. }
  rewrite (main_setup_ok W a se Hs), outcome_pair in Hok.
  destruct (run_epochs_writes W a se (epoch_range a) (initial_state W se))
    as (rs & Hsv & Hks & _ & Hfin).
  destruct (Hfin s Hok) as (Hlen & Hm).
  rewrite Hlen, firstn_all in Hks.
  assert (Hfilter : forall l : list (nat * params * bool),
             filter (fun f => negb (String.eqb (fst f) (best_path a)))
               (flat_map (epoch_writes a) l)
             = map (fun r => (epoch_path (fst (fst r)), snd (fst r))) l).
  { induction l as [| [[k p] w] l IH]; [reflexivity |].
    cbn [flat_map map]. rewrite filter_app, IH.
    unfold epoch_writes. cbn [fst snd filter app].
    rewrite epoch_path_not_best. cbn [negb].
    destruct w; cbn [filter fst app].
    - now rewrite String.eqb_refl.
    - reflexivity. }
  assert (Hfiles : epoch_files
                   = map (fun r => (epoch_path (fst (fst r)), snd (fst r))) rs).
  { unfold epoch_files.
    rewrite (main_setup_ok W a se Hs), trace_pair, saves_app.
    rewrite (saves_quiet _ (setup_quiet W a)). cbn [app].
    now rewrite Hsv, Hfilter. }
  rewrite Hfiles, !map_map. cbn [fst snd]. split.
  - rewrite <- Hks. now rewrite map_map.
  - intro d. rewrite Hm. apply last_nonempty.
    destruct rs; [| discriminate]. unfold epoch_range in Hlen.
    rewrite length_seq in Hlen. simpl in Hlen. lia.
Qed.

Lemma completed_run_checkpoints_witness :
  let W := toy [plain_batch 1] [staged_batch three_stages] in
  let a := set_epochs 1 default_args in
  (0 < epochs a)%Z /\
  exists s, outcome (main W a) = Ok s /\
    map fst (filter (fun f => negb (String.eqb (fst f) (best_path a)))
               (saves (trace (main W a))))
    = map epoch_path (epoch_range a).
Proof.
  intros W a.
  assert (Hep : (0 < epochs a)%Z) by (simpl; lia).
  split; [exact Hep |].
  pose proof (toy_setup_ok three_stages 1) as Hs. fold W a in Hs.
  assert (Hf : 0 < three_stages 1) by (simpl; lra).
  destruct (toy_epoch three_stages a 0 []
              (initial_state W (toy_session three_stages)) 0 eq_refl Hf)
    as (Hout & _ & _).
  fold W in Hout.
  assert (Hok : outcome (main W a)
                = outcome (run_epochs W a (toy_session three_stages) []
                    {| train_state :=
                         {| model := 1%nat; moments := tt;
                            scaler := update_scale default_scaler_cfg
                                        (new_scaler default_scaler_cfg) true |};
                       best_psnr :=
                         if pygt (Fin (psnr_value (three_stages 1))) (Fin 0)
                         then Fin (psnr_value (three_stages 1)) else Fin 0 |})).
  { rewrite (main_setup_ok W a _ Hs), outcome_pair.
    change (epoch_range a) with [0%nat]. exact Hout. }
  eexists. split; [exact Hok |].
  exact (proj1 (completed_run_checkpoints W a _ Hok Hep)).
Defined.

(** ** The work of a run that ends normally *)

Section RunWork.

Context {batch params opt_state dataset loader : Type}.
Variable W : Collab batch params opt_state dataset loader.
Variable a : Args.

(** The scaler after a training loop is the scaler before it after one
    update per call of [scaler.step], with the outcome of that call. *)
Lemma train_loop_scaler_steps (oc : OptimizerConfig) (bs : list batch)
    (st : TrainState params opt_state) (epoch_loss : pyfloat) :
  scaler (fold_left (iteration_result W a oc) bs st)
  = fold_left (update_scale (scaler_cfg W))
      (steps (trace (for_each (train_iteration W a oc) bs (st, epoch_loss))))
      (scaler st).
Proof.
  revert st epoch_loss. induction bs as [| b bs IH]; intros st el.
  - reflexivity.
  - rewrite for_each_ok
      with (s' := (iteration_result W a oc st b,
                   fadd el (loss_item W (device_of a) true (model st) b)))
      by (now rewrite train_iteration_eq).
    rewrite train_iteration_eq, !trace_pair, steps_app.
    cbn [fold_left steps flat_map app].
    rewrite (IH (iteration_result W a oc st b)
               (fadd el (loss_item W (device_of a) true (model st) b))).
    now rewrite iteration_result_scaler.
Qed.

(** An epoch that goes through: what it fetches, the steps it takes and
    the scaler it leaves. *)
Lemma epoch_body_work (tdl vdl : loader) (seed : Z)
    (s s1 : LoopState params opt_state) (epoch : nat) :
  outcome (epoch_body W a (make_optimizer a) tdl vdl seed s epoch) = Ok s1 ->
  fetches (trace (epoch_body W a (make_optimizer a) tdl vdl seed s epoch))
  = map (pair true) (iter_loader W tdl seed epoch)
    ++ map (pair false) (iter_loader W vdl seed epoch) /\
  List.length (steps (trace (epoch_body W a (make_optimizer a) tdl vdl seed s epoch)))
  = len_loader W tdl /\
  scaler (train_state s1)
  = fold_left (update_scale (scaler_cfg W))
      (steps (trace (epoch_body W a (make_optimizer a) tdl vdl seed s epoch)))
      (scaler (train_state s)).
Proof.
  intro Hok.
  set (oc := make_optimizer a) in *.
  set (bs := iter_loader W tdl seed epoch).
  destruct (truediv (fsum (iteration_losses W a oc (train_state s) bs))
              (of_len (len_loader W tdl))) as [mean | e] eqn:Hdiv.
  2:{ pose proof (train_epoch_err W a oc tdl seed (train_state s) epoch e Hdiv)
        as Ht.
      rewrite (epoch_body_train_err W a oc tdl vdl seed s epoch e) in Hok
        by (now rewrite Ht).
      discriminate. }
  pose proof (train_epoch_ok W a oc tdl seed (train_state s) epoch mean Hdiv)
    as Ht. fold bs in Ht.
  set (st := fold_left (iteration_result W a oc) bs (train_state s)) in *.
  assert (Hto : outcome (train_epoch W a oc tdl seed (train_state s) epoch)
                = Ok st) by (now rewrite Ht).
  set (vs := iter_loader W vdl seed epoch).
  destruct (psnr_fold (map (loss_item W (device_of a) false (model st)) vs)
              (Fin 0)) as [avg | e] eqn:Hfold.
  2:{ pose proof (eval_epoch_loop_err W a vdl seed (model st) epoch e Hfold)
        as Hv.
      rewrite (epoch_body_eval_err W a oc tdl vdl seed s epoch st e Hto) in Hok
        by (now rewrite Hv).
      discriminate. }
  destruct (truediv avg (of_len (len_loader W vdl))) as [meanp | e] eqn:Hdivp.
  2:{ pose proof (eval_epoch_div_err W a vdl seed (model st) epoch avg e
                    Hfold Hdivp) as Hv.
      rewrite (epoch_body_eval_err W a oc tdl vdl seed s epoch st e Hto) in Hok
        by (now rewrite Hv).
      discriminate. }
  pose proof (eval_epoch_ok W a vdl seed (model st) epoch avg meanp Hfold Hdivp)
    as Hv. fold vs in Hv.
  assert (Hvo : outcome (eval_epoch W a vdl seed (model st) epoch) = Ok avg)
    by (now rewrite Hv).
  rewrite (epoch_body_ok W a oc tdl vdl seed s epoch st avg Hto Hvo) in *.
  rewrite outcome_pair in Hok. injection Hok as <-.
  rewrite Ht, Hv, !trace_pair.
  destruct (train_loop_events W a oc bs (train_state s) (Fin 0)) as (Hf & Hs).
  destruct (eval_loop_trace W a (model st) vs (Fin 0)) as (_ & _ & _ & Hes).
  assert (Hef : fetches (trace (for_each (eval_iteration W a (model st)) vs (Fin 0)))
                = map (pair false) vs).
  { apply (eval_loop_fetches W a (model st) vs (Fin 0) avg).
    now rewrite eval_loop_outcome. }
  assert (Hsteps : steps
                     ((trace (for_each (train_iteration W a oc) bs
                                (train_state s, Fin 0))
                       ++ [EPrint (LTrainingLoss epoch mean)])
                      ++ (trace (for_each (eval_iteration W a (model st)) vs (Fin 0))
                          ++ [EPrint (LAveragePSNR meanp)])
                      ++ ESave (epoch_path epoch) (model st)
                         :: (if pygt avg (best_psnr s)
                             then [ESave (best_path a) (model st)] else []))
                   = steps (trace (for_each (train_iteration W a oc) bs
                                     (train_state s, Fin 0)))).
  { rewrite !steps_app, Hes. cbn [steps flat_map app].
    destruct (pygt avg (best_psnr s)); cbn [flat_map app];
      now rewrite !app_nil_r. }
  rewrite Hsteps. split; [| split].
  - rewrite !fetches_app, Hf, Hef. cbn [fetches flat_map app].
    destruct (pygt avg (best_psnr s)); cbn [flat_map app];
      now rewrite !app_nil_r.
  - rewrite Hs. apply iter_loader_length.
  - cbn [train_state]. apply train_loop_scaler_steps.
Qed.

Lemma run_epochs_work (se : Session params loader) (ks : list nat) :
  forall s s' : LoopState params opt_state,
    outcome (run_epochs W a se ks s) = Ok s' ->
    fetches (trace (run_epochs W a se ks s))
    = flat_map (fun k =>
                  map (pair true) (iter_loader W (train_dataloader se) (seed_used se) k)
                  ++ map (pair false) (iter_loader W (val_dataloader se) (seed_used se) k))
        ks /\
    List.length (steps (trace (run_epochs W a se ks s)))
    = (List.length ks * len_loader W (train_dataloader se))%nat /\
    scaler (train_state s')
    = fold_left (update_scale (scaler_cfg W))
        (steps (trace (run_epochs W a se ks s))) (scaler (train_state s)).
Proof.
  induction ks as [| k0 ks IH]; intros s s' Hok.
  - injection Hok as <-. repeat split.
  - unfold run_epochs in *.
    destruct (outcome (epoch_body W a (make_optimizer a) (train_dataloader se)
                         (val_dataloader se) (seed_used se) s k0))
      as [s1 | e] eqn:Hb.
    2:{ rewrite (for_each_err _ _ _ _ _ Hb), outcome_pair in Hok. discriminate. }
    rewrite (for_each_ok _ _ _ _ _ Hb) in *.
    rewrite outcome_pair in Hok. rewrite trace_pair.
    destruct (epoch_body_work _ _ _ _ _ _ Hb) as (Hf & Hs & Hsc).
    destruct (IH s1 s' Hok) as (Hf' & Hs' & Hsc').
    rewrite fetches_app, steps_app, length_app, fold_left_app.
    rewrite Hf, Hf', Hs, Hs', Hsc', Hsc. repeat split.
Qed.

End RunWork.

(** X10.  In a run that ends normally every epoch of [range(epochs)]
    fetches all the training batches, in the order the loader gives them,
    and then all the validation batches; [scaler.step] is called once per
    training batch and never during validation. *)
Theorem completed_run_work
    {batch params opt_state dataset loader : Type}
    (W : Collab batch params opt_state dataset loader) (a : Args)
    (se : Session params loader) (s : LoopState params opt_state) :
  outcome (setup W a) = Ok se ->
  outcome (main W a) = Ok s ->
  fetches (trace (main W a))
  = flat_map (fun k =>
                map (pair true) (iter_loader W (train_dataloader se) (seed_used se) k)
                ++ map (pair false) (iter_loader W (val_dataloader se) (seed_used se) k))
      (epoch_range a) /\
  List.length (steps (trace (main W a)))
  = (Z.to_nat (epochs a) * len_loader W (train_dataloader se))%nat.
Proof.
  intros Hs Hok.
  rewrite (main_setup_ok W a se Hs) in *. rewrite outcome_pair in Hok.
  destruct (run_epochs_work W a se (epoch_range a) _ _ Hok) as (Hf & Hst & _).
  rewrite trace_pair, fetches_app, steps_app, length_app, Hf, Hst.
  assert (Hh : fetches (trace (setup W a)) = [] /\ steps (trace (setup W a)) = []).
  { rewrite setup_trace.
    destruct (cuda_is_available W && negb (cuda a)); split; reflexivity. }
  destruct Hh as (-> & ->). split; [reflexivity |].
  unfold epoch_range. now rewrite length_seq.
Qed.

(** X11.  The scaler a run ends with is the fresh scaler after one update
    per call of [scaler.step] of the run, in order, each with the outcome
    of its call: validation and saving never touch it. *)
Theorem completed_run_scaler
    {batch params opt_state dataset loader : Type}
    (W : Collab batch params opt_state dataset loader) (a : Args)
    (s : LoopState params opt_state) :
  outcome (main W a) = Ok s ->
  scaler (train_state s)
  = fold_left (update_scale (scaler_cfg W)) (steps (trace (main W a)))
      (new_scaler (scaler_cfg W)).
Proof.
  intro Hok.
  destruct (outcome (setup W a)) as [se | e] eqn:Hs.
  2:{ rewrite (main_setup_err W a e Hs), outcome_pair in Hok. discriminate. }
  rewrite (main_setup_ok W a se Hs) in *. rewrite outcome_pair in Hok.
  destruct (run_epochs_work W a se (epoch_range a) _ _ Hok) as (_ & _ & Hsc).
  rewrite trace_pair, steps_app.
  replace (steps (trace (setup W a))) with (@nil bool)
    by (rewrite setup_trace;
        destruct (cuda_is_available W && negb (cuda a)); reflexivity).
  exact Hsc.
Qed.

(** One epoch of the small world with validation loss 1/100 ends normally. *)
Lemma toy_one_epoch_outcome :
  let W := toy [plain_batch 1] [staged_batch three_stages] in
  let a := set_epochs 1 default_args in
  outcome (main W a)
  = Ok {| train_state :=
            {| model := 1%nat; moments := tt;
               scaler := update_scale default_scaler_cfg
                           (new_scaler default_scaler_cfg) true |};
          best_psnr :=
            if pygt (Fin (psnr_value (three_stages 1))) (Fin 0)
            then Fin (psnr_value (three_stages 1)) else Fin 0 |}.
Proof.
  intros W a.
  pose proof (toy_setup_ok three_stages 1) as Hs. fold W a in Hs.
  assert (Hf : 0 < three_stages 1) by (simpl; lra).
  destruct (toy_epoch three_stages a 0 []
              (initial_state W (toy_session three_stages)) 0 eq_refl Hf)
    as (Hout & _ & _).
  fold W in Hout.
  rewrite (main_setup_ok W a _ Hs), outcome_pair.
  change (epoch_range a) with [0%nat]. exact Hout.
Qed.

Lemma completed_run_work_witness :
  let W := toy [plain_batch 1] [staged_batch three_stages] in
  let a := set_epochs 1 default_args in
  outcome (setup W a) = Ok (toy_session three_stages) /\
  (exists s, outcome (main W a) = Ok s) /\
  fetches (trace (main W a))
  = [(true, plain_batch 1); (false, staged_batch three_stages)] /\
  List.length (steps (trace (main W a))) = 1%nat.
Proof.
  intros W a.
  pose proof (toy_setup_ok three_stages 1) as Hs. fold W a in Hs.
  pose proof toy_one_epoch_outcome as Hok. cbv zeta in Hok. fold W a in Hok.
  split; [exact Hs |]. split; [eexists; exact Hok |].
  exact (completed_run_work W a (toy_session three_stages) _ Hs Hok).
Defined.

Lemma completed_run_scaler_witness :
  let W := toy [plain_batch 1] [staged_batch three_stages] in
  let a := set_epochs 1 default_args in
  exists s,
    outcome (main W a) = Ok s /\
    scaler (train_state s)
    = fold_left (update_scale (scaler_cfg W)) (steps (trace (main W a)))
        (new_scaler (scaler_cfg W)).
Proof.
  intros W a.
  pose proof toy_one_epoch_outcome as Hok. cbv zeta in Hok. fold W a in Hok.
  eexists. split; [exact Hok |].
  exact (completed_run_scaler W a _ Hok).
Defined.

(** ** The best metric at the end of a run *)

Section BestMetric.

Context {batch params opt_state dataset loader : Type}.
Variable W : Collab batch params opt_state dataset loader.
Variable a : Args.

Lemma run_epochs_best (se : Session params loader) (ks : list nat) :
  forall (s s' : LoopState params opt_state) (b : R),
    best_psnr s = Fin b ->
    outcome (run_epochs W a se ks s) = Ok s' ->
    exists b',
      best_psnr s' = Fin b' /\ b <= b' /\
      (b < b' <->
       existsb snd (epoch_reports a (trace (run_epochs W a se ks s))) = true).
Proof.
  induction ks as [| k0 ks IH]; intros s s' b Hb Hok.
  - injection Hok as <-. exists b. split; [assumption |]. split; [lra |].
    split; [lra | discriminate].
  - unfold run_epochs in Hok |- *.
    destruct (epoch_body_cases W a (make_optimizer a) (train_dataloader se)
                (val_dataloader se) (seed_used se) s k0)
      as [(e & He & _) | (pre & st & avg & mean & Hpre & Hr & _ & Heq)].
    + rewrite (for_each_err _ _ _ _ _ He), outcome_pair in Hok. discriminate.
    + rewrite Hb in Heq.
      assert (Hbest : exists b1,
                 (if pygt avg (Fin b) then avg else Fin b) = Fin b1 /\
                 b <= b1 /\ (b < b1 <-> pygt avg (Fin b) = true)).
      { destruct avg as [x | | |]; try discriminate.
        - unfold pygt. destruct (Rlt_dec b x) as [Hlt | Hge].
          + exists x. split; [reflexivity |]. split; [lra |].
            split; [reflexivity | intros _; assumption].
          + exists b. split; [reflexivity |]. split; [lra |].
            split; [lra | discriminate].
        - exists b. split; [reflexivity |]. split; [lra |].
          split; [lra | discriminate]. }
      destruct Hbest as (b1 & Hb1 & Hle1 & Hiff1).
      rewrite Hb1 in Heq.
      set (s1 := {| train_state := st; best_psnr := Fin b1 |}) in *.
      assert (Hs1 : outcome (epoch_body W a (make_optimizer a) (train_dataloader se)
                               (val_dataloader se) (seed_used se) s k0) = Ok s1)
        by (now rewrite Heq).
      rewrite (for_each_ok _ _ _ _ _ Hs1) in Hok |- *.
      rewrite outcome_pair in Hok. rewrite trace_pair, Heq, trace_pair.
      destruct (IH s1 s' b1 eq_refl Hok) as (b' & Hb' & Hle & Hiff).
      fold (run_epochs W a se ks s1).
      rewrite (epoch_reports_epoch a pre _ mean k0 (model st)
                 (pygt avg (Fin b)) Hpre
                 (run_epochs_no_early_best W a se ks s1)).
      cbn [existsb snd].
      exists b'. split; [assumption |]. split; [lra |].
      rewrite orb_true_iff, <- Hiff1, <- Hiff. split.
      * intro Hlt. destruct (Rlt_dec b b1); [now left | right; lra].
      * intros [H | H]; lra.
Qed.

End BestMetric.

(** X12.  At the end of a run that ends normally the best metric is a
    number, never below the 0 it started from, and it is above 0 exactly
    when some epoch overwrote the best file. *)
Theorem best_metric_final
    {batch params opt_state dataset loader : Type}
    (W : Collab batch params opt_state dataset loader) (a : Args)
    (s : LoopState params opt_state) :
  outcome (main W a) = Ok s ->
  exists b,
    best_psnr s = Fin b /\ 0 <= b /\
    (0 < b <-> existsb snd (epoch_reports a (trace (main W a))) = true).
Proof.
  intro Hok.
  destruct (outcome (setup W a)) as [se | e] eqn:Hs.
  2:{ rewrite (main_setup_err W a e Hs), outcome_pair in Hok. discriminate. }
  rewrite (main_setup_ok W a se Hs) in *. rewrite outcome_pair in Hok.
  rewrite trace_pair, (epoch_reports_quiet_app a _ _ (setup_quiet W a)).
  exact (run_epochs_best W a se (epoch_range a) (initial_state W se) s 0
           eq_refl Hok).
Qed.

Lemma best_metric_final_witness :
  let W := toy [plain_batch 1] [staged_batch three_stages] in
  let a := set_epochs 1 default_args in
  exists s b,
    outcome (main W a) = Ok s /\ best_psnr s = Fin b /\ 0 <= b.
Proof.
  intros W a.
  pose proof toy_one_epoch_outcome as Hok. cbv zeta in Hok. fold W a in Hok.
  destruct (best_metric_final W a _ Hok) as (b & Hb & Hle & _).
  eexists. exists b. split; [exact Hok |]. split; assumption.
Defined.

(** ** The start of a run *)

(** X13.  Every run begins the same way, whatever follows: it prints its
    options, makes the directory [weights], prints the seed in use (the
    given [--manualSeed], else the number drawn) and prints the CUDA warning
    exactly when a device is available and [--cuda] was not given.  When a
    collaborator then raises during the set-up, nothing more happens and
    the run ends in that exception. *)
Theorem run_header
    {batch params opt_state dataset loader : Type}
    (W : Collab batch params opt_state dataset loader) (a : Args) :
  exists rest,
    trace (main W a)
    = [EPrint (LNamespace a); EMakedirs "weights";
       EPrint (LRandomSeed (match manualSeed a with
                            | Some sd => sd
                            | None => randint_1_10000 W
                            end))]
      ++ (if cuda_is_available W && negb (cuda a)
          then [EPrint LCudaWarning] else [])
      ++ rest /\
    (forall e, outcome (setup W a) = Err e ->
               rest = [] /\ outcome (main W a) = Err e).
Proof.
  destruct (outcome (setup W a)) as [se | e] eqn:Hs.
  - exists (trace (run_epochs W a se (epoch_range a) (initial_state W se))).
    rewrite (main_setup_ok W a se Hs), trace_pair, setup_trace.
    split; [now rewrite <- !app_assoc | discriminate].
  - exists []. rewrite (main_setup_err W a e Hs), trace_pair, outcome_pair.
    rewrite setup_trace, app_nil_r.
    split; [reflexivity |]. intros e' He'. injection He' as <-.
    split; reflexivity.
Qed.

Lemma run_header_witness :
  let W := toy [plain_batch 1] [plain_batch 1] in
  let a := with_weights "model.pth" default_args in
  outcome (setup W a) = Err (OtherError "no such file") /\
  trace (main W a)
  = [EPrint (LNamespace a); EMakedirs "weights"; EPrint (LRandomSeed 42)] /\
  outcome (main W a) = Err (OtherError "no such file").
Proof.
  intros W a.
  assert (Hs : outcome (setup W a) = Err (OtherError "no such file"))
    by reflexivity.
  split; [exact Hs |].
  destruct (run_header W a) as (rest & Ht & Hrest).
  destruct (Hrest _ Hs) as (-> & Ho).
  split; [exact Ht | exact Ho].
Defined.

(** X14.  With [--manualSeed] given, the number [random.randint] would
    draw plays no part: the whole run is the same for every draw. *)
Theorem given_seed_ignores_draw
    {batch params opt_state dataset loader : Type}
    (W : Collab batch params opt_state dataset loader) (a : Args)
    (sd z : Z) :
  manualSeed a = Some sd ->
  main (with_randint W z) a = main W a.
Proof.
  intro H. destruct a as [dr wk ep bsz lr0 sf pf cu wt ms].
  cbn [manualSeed] in H. subst ms. reflexivity.
Qed.

Lemma given_seed_ignores_draw_witness :
  let W := toy [plain_batch 1] [staged_batch three_stages] in
  let a := with_seed 7 default_args in
  manualSeed a = Some 7%Z /\
  main (with_randint W 1234) a = main W a.
Proof.
  intros W a. split; [reflexivity |].
  exact (given_seed_ignores_draw W a 7 1234 eq_refl).
Defined.

(** X15.  With [--weights path] and collaborators that accept the data
    options: when the file loads, the epoch loop starts from the loaded
    parameters, but with fresh optimizer buffers, a fresh scaler and the
    best metric back at 0, so nothing of an earlier run's best metric is
    kept; when loading raises, the run ends in that exception right after
    the set-up output. *)
Theorem resume_from_weights
    {batch params opt_state dataset loader : Type}
    (W : Collab batch params opt_state dataset loader) (a : Args)
    (d1 d2 : dataset) (l1 l2 : loader) :
  weights a <> ""%string ->
  DatasetFromFolder W (dataroot a ++ "/train")%string (scale_factor a) = Ok d1 ->
  DatasetFromFolder W (dataroot a ++ "/val")%string (scale_factor a) = Ok d2 ->
  DataLoader W d1 (batch_size a) true (workers a) = Ok l1 ->
  DataLoader W d2 (batch_size a) false (workers a) = Ok l2 ->
  (forall p, torch_load W (weights a) (device_of a) = Ok p ->
     exists se,
       outcome (setup W a) = Ok se /\
       train_dataloader se = l1 /\ val_dataloader se = l2 /\
       initial_state W se
       = {| train_state := {| model := p; moments := adam_init W p;
                              scaler := new_scaler (scaler_cfg W) |};
            best_psnr := Fin 0 |}) /\
  (forall e, torch_load W (weights a) (device_of a) = Err e ->
     main W a = (trace (setup W a), Err e)).
Proof.
  intros Hw H1 H2 H3 H4.
  assert (Hnb : String.eqb (weights a) "" = false)
    by (now apply String.eqb_neq).
  assert (Hsetup : outcome (setup W a)
                   = match torch_load W (weights a) (device_of a) with
                     | Ok p => Ok {| train_dataloader := l1; val_dataloader := l2;
                                     seed_used := effective_seed W a;
                                     initial_model := p |}
                     | Err e => Err e
                     end).
  { unfold setup. rewrite !bind_emit, !outcome_pair.
    assert (Hwn : outcome (if cuda_is_available W && negb (cuda a)
                           then emit (E := event batch params)
                                  (EPrint LCudaWarning)
                           else ret tt) = Ok tt)
      by (destruct (cuda_is_available W && negb (cuda a)); reflexivity).
    rewrite (bind_ok _ _ _ Hwn), outcome_pair.
    rewrite H1, bind_lift_ok, H2, bind_lift_ok, H3, bind_lift_ok, H4,
      bind_lift_ok, Hnb.
    destruct (torch_load W (weights a) (device_of a)) as [p | e].
    - now rewrite bind_lift_ok.
    - reflexivity. }
  split.
  - intros p Hp. rewrite Hp in Hsetup. eexists. split; [exact Hsetup |].
    repeat split.
  - intros e He. rewrite He in Hsetup. now apply main_setup_err.
Qed.

Lemma resume_from_weights_witness :
  let W := toy [plain_batch 1] [plain_batch 1] in
  let a := with_weights "model.pth" default_args in
  weights a <> ""%string /\
  torch_load W (weights a) (device_of a) = Err (OtherError "no such file") /\
  main W a = (trace (setup W a), Err (OtherError "no such file")).
Proof.
  intros W a.
  assert (Hw : weights a <> ""%string) by discriminate.
  split; [exact Hw |]. split; [reflexivity |].
  destruct (resume_from_weights W a [plain_batch 1] [plain_batch 1]
              [plain_batch 1] [plain_batch 1] Hw eq_refl eq_refl eq_refl eq_refl)
    as (_ & Herr).
  exact (Herr _ eq_refl).
Defined.
